(** * ollama-mcp: routing between a local and a remote Ollama instance

    A shallow embedding of [mcp-servers/ollama-mcp/index.js]: the
    [OllamaClient] class, the complexity estimate, and the handler of
    tool calls with its routing of [chat] requests.

    JavaScript strings are sequences of UTF-16 code units, values are
    dynamically typed, and every network call may resolve, reject or
    never settle; the embedding keeps all three. *)

From Stdlib Require Import List Bool Arith NArith ZArith Lia String Ascii.
From Stdlib Require Import DecimalString.
Import ListNotations.

Set Implicit Arguments.

(* ===================================================================== *)
(** ** JavaScript strings and values *)
(* ===================================================================== *)

(** A string is the list of its UTF-16 code units. *)
Definition jsstring := list N.

(** Literals of the source are ASCII; [str] gives their code units. *)
Definition str (s : string) : jsstring :=
  map N_of_ascii (list_ascii_of_string s).

Fixpoint jsstring_eqb (a b : jsstring) : bool :=
  match a, b with
  | [], [] => true
  | x :: a', y :: b' => (x =? y)%N && jsstring_eqb a' b'
  | _, _ => false
  end.

(** Template literals [`${n}`] print a number in decimal. *)
Definition decimal (n : N) : jsstring :=
  str (NilEmpty.string_of_uint (N.to_uint n)).

(** The values that reach the server: what [JSON.parse] produces, and
    [undefined] for an absent property. Numbers are only ever tested for
    truthiness or passed on, so the integral ones stand for all. *)
#[local] Unset Elimination Schemes.
Inductive jsval :=
| JUndefined
| JNull
| JBool (b : bool)
| JNum (n : Z)
| JStr (s : jsstring)
| JArr (items : list jsval)
| JObj (fields : list (jsstring * jsval)).
#[local] Set Elimination Schemes.

(** ToBoolean. *)
Definition truthy (v : jsval) : bool :=
  match v with
  | JUndefined | JNull => false
  | JBool b => b
  | JNum n => negb (Z.eqb n 0)
  | JStr s => match s with [] => false | _ => true end
  | JArr _ | JObj _ => true
  end.

(** [a || b] *)
Definition js_or (a b : jsval) : jsval := if truthy a then a else b.

(** [v === 'literal'] *)
Definition strict_eq_str (v : jsval) (lit : jsstring) : bool :=
  match v with
  | JStr s => jsstring_eqb s lit
  | _ => false
  end.

(** An [Error] object, as far as the program looks at it. *)
Record Error := mkError { message : jsstring }.

(** Own property of a parsed object (keys of such an object are distinct). *)
Fixpoint own_property (fields : list (jsstring * jsval)) (key : jsstring) : jsval :=
  match fields with
  | [] => JUndefined
  | (k, v) :: rest => if jsstring_eqb k key then v else own_property rest key
  end.

(** [v.key] without the check for [undefined] and [null], for the keys
    the program reads ([message], [content], [models], ...): none of them
    is a built-in property of a primitive or of an array, so off anything
    but an object the result is [undefined]. *)
Definition field (v : jsval) (key : jsstring) : jsval :=
  match v with
  | JObj fields => own_property fields key
  | _ => JUndefined
  end.

Definition nullish (v : jsval) : bool :=
  match v with
  | JUndefined | JNull => true
  | _ => false
  end.

Definition type_name (v : jsval) : jsstring :=
  match v with
  | JNull => str "null"
  | _ => str "undefined"
  end.

(** [v.key]: a TypeError when [v] is [undefined] or [null]. *)
Definition get_property (v : jsval) (key : jsstring) : Error + jsval :=
  if nullish v
  then inl (mkError (str "Cannot read properties of " ++ type_name v
                     ++ str " (reading '" ++ key ++ str "')"))
  else inr (field v key).

(** [v?.key] *)
Definition get_property_optional (v : jsval) (key : jsstring) : jsval :=
  if nullish v then JUndefined else field v key.

(* ===================================================================== *)
(** ** The two regular-expression forms the program uses *)
(* ===================================================================== *)

Module Regex.

(** The class [\s]: WhiteSpace and LineTerminator code units. *)
Definition is_space (c : N) : bool :=
  ((9 <=? c) && (c <=? 13))%N
  || (c =? 32)%N || (c =? 160)%N || (c =? 5760)%N
  || ((8192 <=? c) && (c <=? 8202))%N
  || (c =? 8232)%N || (c =? 8233)%N || (c =? 8239)%N
  || (c =? 8287)%N || (c =? 12288)%N || (c =? 65279)%N.

(** Canonicalize, for the flag [i] without [u]: a code unit is compared
    through its upper case, and a code unit of 128 or more never
    canonicalizes to one below 128. Every pattern of the program is
    made of ASCII letters, so the only equalities that matter are with
    canonical forms below 128, and there this is the whole mapping. *)
Definition canonicalize (c : N) : N :=
  if ((97 <=? c) && (c <=? 122))%N then (c - 32)%N else c.

Definition char_eq_i (p c : N) : bool :=
  (canonicalize p =? canonicalize c)%N.

(** One alternative, a literal word, matched at the start of [text]. *)
Fixpoint match_here_i (word text : jsstring) : bool :=
  match word, text with
  | [], _ => true
  | _ :: _, [] => false
  | p :: word', c :: text' => char_eq_i p c && match_here_i word' text'
  end.

(** [/w1|w2|...|wn/i.test(text)]: the alternatives are tried in order
    at index 0, then at index 1, and so on to the end of the text. *)
Fixpoint test_i (alternatives : list jsstring) (text : jsstring) : bool :=
  existsb (fun w => match_here_i w text) alternatives
  || match text with
     | [] => false
     | _ :: text' => test_i alternatives text'
     end.

(** [text.split(/\s+/)]: the text is cut at every maximal run of
    white space; a run at the very start or end leaves an empty piece
    there, and the empty text gives one empty piece. [piece] holds the
    current piece in reverse, [in_run] tells that the previous code
    unit was white space. *)
Fixpoint split_spaces_from (in_run : bool) (piece text : jsstring)
  : list jsstring :=
  match text with
  | [] => [rev piece]
  | c :: text' =>
      if is_space c
      then if in_run
           then split_spaces_from true [] text'
           else rev piece :: split_spaces_from true [] text'
      else split_spaces_from false (c :: piece) text'
  end.

Definition split_spaces (text : jsstring) : list jsstring :=
  split_spaces_from false [] text.

End Regex.

(* ===================================================================== *)
(** ** estimateComplexity *)
(* ===================================================================== *)

Inductive Complexity := simple | medium | complex.

Definition Complexity_eqb (a b : Complexity) : bool :=
  match a, b with
  | simple, simple | medium, medium | complex, complex => true
  | _, _ => false
  end.

Definition wordCount (prompt : jsstring) : nat :=
  List.length (Regex.split_spaces prompt).

Definition hasCodeRequest (prompt : jsstring) : bool :=
  Regex.test_i
    (map str ["code"; "implement"; "function"; "class"; "debug"; "fix"]%string)
    prompt.

Definition hasAnalysisRequest (prompt : jsstring) : bool :=
  Regex.test_i
    (map str ["analyze"; "explain"; "compare"; "evaluate"]%string) prompt.

Definition hasSimpleRequest (prompt : jsstring) : bool :=
  Regex.test_i
    (map str ["hello"; "hi"; "thanks"; "yes"; "no"; "ok"]%string) prompt.

Definition estimateComplexity (prompt : jsstring) : Complexity :=
  if hasSimpleRequest prompt && (wordCount prompt <? 20) then simple
  else if hasCodeRequest prompt || hasAnalysisRequest prompt
          || (100 <? wordCount prompt)
       then complex
       else medium.

(** The word count as the specification words it: the number of
    whitespace-delimited tokens, that is of maximal runs of code units
    that are not white space. [in_token] tells that the previous code
    unit belonged to a token. *)
Fixpoint count_tokens_from (in_token : bool) (text : jsstring) : nat :=
  match text with
  | [] => 0
  | c :: text' =>
      if Regex.is_space c then count_tokens_from false text'
      else (if in_token then 0 else 1) + count_tokens_from true text'
  end.

Definition tokenCount (text : jsstring) : nat := count_tokens_from false text.

(** Whether the last code unit of [text] is white space; [prev] answers
    for the empty text. *)
Fixpoint ends_in_space (prev : bool) (text : jsstring) : bool :=
  match text with
  | [] => prev
  | c :: text' => ends_in_space (Regex.is_space c) text'
  end.

(** The pieces that are not tokens: one for an empty text or a text
    that starts with white space, one for a text that ends with it. *)
Definition padding (text : jsstring) : nat :=
  match text with
  | [] => 1
  | c :: text' =>
      (if Regex.is_space c then 1 else 0)
      + (if ends_in_space (Regex.is_space c) text' then 1 else 0)
  end.

(** A piece without white space. *)
Definition no_space (piece : jsstring) : bool :=
  forallb (fun c => negb (Regex.is_space c)) piece.

(* ===================================================================== *)
(** ** The network and asynchronous computations *)
(* ===================================================================== *)

Inductive Method := GET | POST.

(** What [fetch] is called with. [signal] is the delay in milliseconds of
    an [AbortSignal.timeout], when one is passed. *)
Record Request := mkRequest {
  url : jsstring;
  method : Method;
  headers : list (jsstring * jsstring);
  body : option jsstring;
  signal : option N
}.

(** A response: its status, its body as text, and what [response.json()]
    makes of the body, a value or the error of the parser. *)
Record Response := mkResponse {
  status : N;
  body_text : jsstring;
  body_json : Error + jsval
}.

(** [response.ok] *)
Definition ok (r : Response) : bool :=
  ((200 <=? status r) && (status r <=? 299))%N.

(** What the network does with a request: it fails after some time, it
    answers after some time, or it stays silent for ever. *)
Inductive NetOutcome :=
| NetError (delay : N) (e : Error)
| NetReply (delay : N) (r : Response)
| NetSilent.

(** The state of the world: the time in milliseconds and the requests
    sent so far, the latest first, each with the time it was sent at. *)
Record World := mkWorld {
  now : N;
  sent : list (N * Request)
}.

(** The network is free to depend on the time and on all that was sent. *)
Definition Network := World -> Request -> NetOutcome.

(** [process.env], for the four variables the program reads. *)
Record ProcessEnv := mkProcessEnv {
  env_OLLAMA_HOST : option jsstring;
  env_REMOTE_OLLAMA_HOST : option jsstring;
  env_LOCAL_MODEL : option jsstring;
  env_REMOTE_MODEL : option jsstring
}.

(** What the program takes from its runtime: the environment, the
    network behind [fetch], and [JSON.stringify] with its indentation
    (0 when the source passes none). *)
Class Runtime := mkRuntime {
  process_env : ProcessEnv;
  network : Network;
  JSON_stringify : N -> jsval -> jsstring
}.

(** An awaited promise is fulfilled, is rejected, or never settles. *)
Inductive Outcome (A : Type) :=
| Returned (a : A)
| Thrown (e : Error)
| Pending.
Arguments Thrown {A} e.
Arguments Pending {A}.

(** An [async] function: run from a world, an outcome and the world after. *)
Definition Async (A : Type) := World -> Outcome A * World.

Definition ret {A} (a : A) : Async A := fun w => (Returned a, w).

Definition throw {A} (e : Error) : Async A := fun w => (Thrown e, w).

Definition bind {A B} (c : Async A) (k : A -> Async B) : Async B :=
  fun w =>
    match c w with
    | (Returned a, w') => k a w'
    | (Thrown e, w') => (Thrown e, w')
    | (Pending, w') => (Pending, w')
    end.

(** [try { body } catch (e) { handler }] *)
Definition try_catch {A} (body : Async A) (handler : Error -> Async A)
  : Async A :=
  fun w =>
    match body w with
    | (Returned a, w') => (Returned a, w')
    | (Thrown e, w') => handler e w'
    | (Pending, w') => (Pending, w')
    end.

(** A synchronous step that may throw. *)
Definition lift {A} (r : Error + A) : Async A :=
  match r with
  | inl e => throw e
  | inr a => ret a
  end.

Declare Scope async_scope.
Delimit Scope async_scope with async.
Notation "x <- c ;; k" := (bind c (fun x => k))
  (at level 61, c at next level, right associativity) : async_scope.
Notation "' pat <- c ;; k" := (bind c (fun x => match x with pat => k end))
  (at level 61, pat pattern, c at next level, right associativity)
  : async_scope.
Local Open Scope async_scope.

Definition TimeoutError : Error :=
  mkError (str "The operation was aborted due to timeout").

Definition advance (d : N) (w : World) : World :=
  mkWorld (now w + d) (sent w).

(** Whether the network answers the probe before its five seconds are
    over, and with a status from 200 to 299. *)
Definition answers_in_time (o : NetOutcome) : bool :=
  match o with
  | NetReply d r => (d <? 5000)%N && ok r
  | _ => false
  end.

(** The class OllamaClient has two instances, and the program tells
    them apart as objects, whatever their addresses: an instance is one
    of two names, and [baseUrl] below a function of it. *)
Inductive OllamaClient := localClient | remoteClient.

(** What a tool call answers. [isError] is [true] when the field is
    there; [metadata] is there for an answered chat only. *)
Record ContentItem := mkContentItem {
  type : jsstring;
  text : jsval
}.

Record Metadata := mkMetadata {
  model : jsval;
  endpoint : jsstring
}.

Record ToolResult := mkToolResult {
  content : list ContentItem;
  metadata : option Metadata;
  isError : bool
}.

(** The routing of a chat request: [client] and [modelToUse]. *)
Record Routing := mkRouting {
  client : OllamaClient;
  modelToUse : jsval
}.

Section Server.

Context {rt : Runtime}.

(** [await fetch(...)]: the request is sent now; with a signal, what
    has not arrived before its delay is over is a rejection at that
    delay; without one, a silent network leaves the promise pending. *)
Definition fetch (req : Request) : Async Response :=
  fun w =>
    let w' := mkWorld (now w) ((now w, req) :: sent w) in
    match network w req, signal req with
    | NetError d e, None => (Thrown e, advance d w')
    | NetReply d r, None => (Returned r, advance d w')
    | NetSilent, None => (Pending, w')
    | NetError d e, Some t =>
        if (d <? t)%N then (Thrown e, advance d w')
        else (Thrown TimeoutError, advance t w')
    | NetReply d r, Some t =>
        if (d <? t)%N then (Returned r, advance d w')
        else (Thrown TimeoutError, advance t w')
    | NetSilent, Some t => (Thrown TimeoutError, advance t w')
    end.

(** [process.env.X || 'default'] *)
Definition env_or (x : option jsstring) (default : jsstring) : jsstring :=
  match x with
  | Some (c :: s) => c :: s
  | _ => default
  end.

Definition LOCAL_OLLAMA_HOST : jsstring :=
  env_or (env_OLLAMA_HOST process_env) (str "http://localhost:8080").
Definition REMOTE_OLLAMA_HOST : jsstring :=
  env_or (env_REMOTE_OLLAMA_HOST process_env) (str "http://192.168.86.56:11434").
Definition DEFAULT_LOCAL_MODEL : jsstring :=
  env_or (env_LOCAL_MODEL process_env) (str "qwen2.5:1.5b").
Definition DEFAULT_REMOTE_MODEL : jsstring :=
  env_or (env_REMOTE_MODEL process_env) (str "qwen2.5:7b").

(** [s.replace(/\/$/, '')]: one slash at the very end is dropped. *)
Fixpoint strip_final_slash (s : jsstring) : jsstring :=
  match s with
  | [] => []
  | [c] => if (c =? 47)%N then [] else [c]
  | c :: s' => c :: strip_final_slash s'
  end.

(** *** The methods of OllamaClient *)

Definition baseUrl (this : OllamaClient) : jsstring :=
  match this with
  | localClient => strip_final_slash LOCAL_OLLAMA_HOST
  | remoteClient => strip_final_slash REMOTE_OLLAMA_HOST
  end.

Definition json_headers : list (jsstring * jsstring) :=
  [(str "Content-Type", str "application/json")].

(** [options] is spread last into the body; the program never passes
    an option named like one of the fields before it. *)
Definition chat_request (this : OllamaClient) (model : jsval)
    (messages : list jsval) (options : list (jsstring * jsval)) : Request :=
  mkRequest (baseUrl this ++ str "/api/chat") POST json_headers
    (Some (JSON_stringify 0
       (JObj ([(str "model", model);
               (str "messages", JArr messages);
               (str "stream", JBool false)] ++ options))))
    None.

Definition chat (this : OllamaClient) (model : jsval) (messages : list jsval)
    (options : list (jsstring * jsval)) : Async jsval :=
  response <- fetch (chat_request this model messages options) ;;
  if negb (ok response)
  then throw (mkError (str "Ollama error: " ++ decimal (status response)
                       ++ str " " ++ body_text response))
  else
    data <- lift (body_json response) ;;
    message <- lift (get_property data (str "message")) ;;
    ret (js_or (get_property_optional message (str "content")) (JStr [])).

Definition generate (this : OllamaClient) (model prompt : jsval)
    (options : list (jsstring * jsval)) : Async jsval :=
  response <- fetch
    (mkRequest (baseUrl this ++ str "/api/generate") POST json_headers
       (Some (JSON_stringify 0
          (JObj ([(str "model", model);
                  (str "prompt", prompt);
                  (str "stream", JBool false)] ++ options))))
       None) ;;
  if negb (ok response)
  then throw (mkError (str "Ollama error: " ++ decimal (status response)
                       ++ str " " ++ body_text response))
  else
    data <- lift (body_json response) ;;
    response_ <- lift (get_property data (str "response")) ;;
    ret (js_or response_ (JStr [])).

Definition tags_request (this : OllamaClient) : Request :=
  mkRequest (baseUrl this ++ str "/api/tags") GET [] None None.

Definition listModels (this : OllamaClient) : Async jsval :=
  response <- fetch (tags_request this) ;;
  if negb (ok response)
  then throw (mkError (str "Ollama error: " ++ decimal (status response)))
  else
    data <- lift (body_json response) ;;
    models <- lift (get_property data (str "models")) ;;
    ret (js_or models (JArr [])).

(** The request [isAvailable] sends: the liveness probe. *)
Definition probe (this : OllamaClient) : Request :=
  mkRequest (baseUrl this ++ str "/api/tags") GET [] None (Some 5000%N).

Definition isAvailable (this : OllamaClient) : Async bool :=
  try_catch
    (response <- fetch (probe this) ;;
     ret (ok response))
    (fun _ => ret false).

(** *** The handler of tool calls *)

(** [estimateComplexity(message)] for whatever [message] is:
    [prompt.split] is only there on a string. *)
Definition call_estimateComplexity (prompt : jsval) : Error + Complexity :=
  match prompt with
  | JStr s => inr (estimateComplexity s)
  | JUndefined | JNull =>
      inl (mkError (str "Cannot read properties of " ++ type_name prompt
                    ++ str " (reading 'split')"))
  | _ => inl (mkError (str "prompt.split is not a function"))
  end.

(** "Auto-routing based on complexity": the last branch of the routing. *)
Definition autoRouting (message : jsval) : Async Routing :=
  complexity <- lift (call_estimateComplexity message) ;;
  goLocal <- (if Complexity_eqb complexity simple
              then isAvailable localClient
              else ret false) ;;
  if goLocal : bool then
    ret (mkRouting localClient (JStr DEFAULT_LOCAL_MODEL))
  else
    ret (mkRouting remoteClient
           (JStr (if Complexity_eqb complexity complex
                  then DEFAULT_REMOTE_MODEL
                  else DEFAULT_LOCAL_MODEL))).

(** "Determine routing" in the case [chat]. *)
Definition determineRouting (message model prefer : jsval) : Async Routing :=
  if truthy model then
    localAvailable <- isAvailable localClient ;;
    ret (mkRouting (if localAvailable : bool then localClient else remoteClient)
                   model)
  else if strict_eq_str prefer (str "fast") then
    ret (mkRouting localClient (JStr DEFAULT_LOCAL_MODEL))
  else if strict_eq_str prefer (str "smart") then
    ret (mkRouting remoteClient (JStr DEFAULT_REMOTE_MODEL))
  else
    autoRouting message.

(** [const { key, ... } = args]: a TypeError on [undefined] and [null]. *)
Definition destructurable (args : jsval) (first_key : jsstring)
  : Error + unit :=
  if nullish args
  then inl (mkError (str "Cannot destructure property '" ++ first_key
                     ++ str "' of 'args' as it is " ++ type_name args
                     ++ str "."))
  else inr tt.

(** [key = 'value'] in a destructuring pattern. *)
Definition with_default (v : jsval) (default : jsval) : jsval :=
  match v with
  | JUndefined => default
  | _ => v
  end.

Definition text_item (t : jsval) : ContentItem :=
  mkContentItem (str "text") t.

Definition build_messages (system message : jsval) : list jsval :=
  (if truthy system
   then [JObj [(str "role", JStr (str "system")); (str "content", system)]]
   else [])
  ++ [JObj [(str "role", JStr (str "user")); (str "content", message)]].

Definition case_chat (args : jsval) : Async ToolResult :=
  _ <- lift (destructurable args (str "message")) ;;
  let message := field args (str "message") in
  let system := field args (str "system") in
  let model := field args (str "model") in
  let prefer := with_default (field args (str "prefer")) (JStr (str "auto")) in
  routing <- determineRouting message model prefer ;;
  let messages := build_messages system message in
  response <- chat (client routing) (modelToUse routing) messages [] ;;
  ret (mkToolResult [text_item response]
         (Some (mkMetadata (modelToUse routing) (baseUrl (client routing))))
         false).

Definition case_generate (args : jsval) : Async ToolResult :=
  _ <- lift (destructurable args (str "prompt")) ;;
  let prompt := field args (str "prompt") in
  let model := field args (str "model") in
  let max_tokens := field args (str "max_tokens") in
  let modelToUse := js_or model (JStr DEFAULT_REMOTE_MODEL) in
  response <- generate remoteClient modelToUse prompt
                [(str "num_predict", max_tokens)] ;;
  ret (mkToolResult [text_item response] None false).

(** The object [results] of the case [list_models]. *)
Definition error_marker (e : Error) : jsval :=
  JArr [JObj [(str "error", JStr (message e))]].

Definition list_models_results : Async (jsval * jsval) :=
  local <- try_catch (listModels localClient)
                     (fun e => ret (error_marker e)) ;;
  remote <- try_catch (listModels remoteClient)
                      (fun e => ret (error_marker e)) ;;
  ret (local, remote).

Definition results_object (r : jsval * jsval) : jsval :=
  JObj [(str "local", fst r); (str "remote", snd r)].

Definition case_list_models : Async ToolResult :=
  results <- list_models_results ;;
  ret (mkToolResult
         [text_item (JStr (JSON_stringify 2 (results_object results)))]
         None false).

Definition case_health_check : Async ToolResult :=
  local_available <- isAvailable localClient ;;
  remote_available <- isAvailable remoteClient ;;
  let health :=
    JObj [(str "local",
           JObj [(str "url", JStr LOCAL_OLLAMA_HOST);
                 (str "available", JBool local_available)]);
          (str "remote",
           JObj [(str "url", JStr REMOTE_OLLAMA_HOST);
                 (str "available", JBool remote_available)])] in
  ret (mkToolResult [text_item (JStr (JSON_stringify 2 health))] None false).

(** The answer of the [catch] around the [switch]. *)
Definition error_result (error : Error) : ToolResult :=
  mkToolResult [text_item (JStr (str "Error: " ++ message error))] None true.

(** The [switch] on the name of the tool. *)
Definition switch_name (name : jsstring) (args : jsval) : Async ToolResult :=
  if jsstring_eqb name (str "chat") then case_chat args
  else if jsstring_eqb name (str "generate") then case_generate args
  else if jsstring_eqb name (str "list_models") then case_list_models
  else if jsstring_eqb name (str "health_check") then case_health_check
  else throw (mkError (str "Unknown tool: " ++ name)).

(** The handler registered for [CallToolRequestSchema], from the [name]
    and the [arguments] of [request.params]; the schema of the request
    makes [name] a string and leaves [arguments] open. *)
Definition callTool (name : jsstring) (args : jsval) : Async ToolResult :=
  try_catch (switch_name name args)
            (fun error => ret (error_result error)).

(** Two calls of [isAvailable] in a row. *)
Definition two_calls (this : OllamaClient) : Async bool :=
  _ <- isAvailable this ;;
  isAvailable this.

(** What the auto branch decides, from the class of the message and
    the answer of the probe of the local client. *)
Definition auto_decision (complexity : Complexity) (local_available : bool)
  : Routing :=
  match complexity with
  | simple =>
      if local_available
      then mkRouting localClient (JStr DEFAULT_LOCAL_MODEL)
      else mkRouting remoteClient (JStr DEFAULT_LOCAL_MODEL)
  | medium => mkRouting remoteClient (JStr DEFAULT_LOCAL_MODEL)
  | complex => mkRouting remoteClient (JStr DEFAULT_REMOTE_MODEL)
  end.

(** The request [generate] sends. *)
Definition generate_request (this : OllamaClient) (model prompt : jsval)
    (options : list (jsstring * jsval)) : Request :=
  mkRequest (baseUrl this ++ str "/api/generate") POST json_headers
    (Some (JSON_stringify 0
       (JObj ([(str "model", model);
               (str "prompt", prompt);
               (str "stream", JBool false)] ++ options))))
    None.

(** The object [health] of the case [health_check]. *)
Definition health_object (local_available remote_available : bool) : jsval :=
  JObj [(str "local",
         JObj [(str "url", JStr LOCAL_OLLAMA_HOST);
               (str "available", JBool local_available)]);
        (str "remote",
         JObj [(str "url", JStr REMOTE_OLLAMA_HOST);
               (str "available", JBool remote_available)])].

End Server.

(** *** The handler of ListToolsRequestSchema *)

Record Tool := mkTool {
  name : jsstring;
  description : jsstring;
  inputSchema : jsval
}.

Definition string_property (text : string) : jsval :=
  JObj [(str "type", JStr (str "string"));
        (str "description", JStr (str text))].

Definition object_schema (properties : list (jsstring * jsval))
    (required : option (list string)) : jsval :=
  JObj ([(str "type", JStr (str "object"));
         (str "properties", JObj properties)]
        ++ match required with
           | Some keys =>
               [(str "required", JArr (map (fun k => JStr (str k)) keys))]
           | None => []
           end).

(** The tools the server advertises. *)
Definition ListTools : list Tool :=
  [ mkTool (str "chat")
      (str "Chat with an LLM. Automatically routes to fast local model for simple queries or smart remote model for complex tasks.")
      (object_schema
         [(str "message", string_property "The message to send to the LLM");
          (str "system", string_property "Optional system prompt");
          (str "model",
           string_property "Specific model to use (overrides auto-routing)");
          (str "prefer",
           JObj [(str "type", JStr (str "string"));
                 (str "enum", JArr [JStr (str "fast"); JStr (str "smart");
                                    JStr (str "auto")]);
                 (str "description",
                  JStr (str "Routing preference: fast (local), smart (remote), or auto"))])]
         (Some ["message"%string]));
    mkTool (str "generate")
      (str "Generate text completion from a prompt")
      (object_schema
         [(str "prompt", string_property "The prompt for text generation");
          (str "model", string_property "Model to use");
          (str "max_tokens",
           JObj [(str "type", JStr (str "number"));
                 (str "description", JStr (str "Maximum tokens to generate"))])]
         (Some ["prompt"%string]));
    mkTool (str "list_models")
      (str "List available models on local and remote Ollama instances")
      (object_schema [] None);
    mkTool (str "health_check")
      (str "Check the health of local and remote Ollama instances")
      (object_schema [] None) ].

(* ===================================================================== *)
(** ** scripts/health-check.sh *)
(* ===================================================================== *)

Module HealthCheck.

Local Open Scope string_scope.

Definition AI_SERVER := "192.168.86.56".
Definition EAST_SERVER := "192.168.86.51".
Definition WINDOWS_HOST := "192.168.86.38".

(** The two functions of the script, with the time they allow in
    seconds: [check_http name url timeout] ([curl -sf]) and
    [check_port name host port timeout] (a write to [/dev/tcp]). Each
    prints a line and returns 0 or 1; neither can end the script, being
    called on the left of [||]. *)
Inductive Probe :=
| check_http (url : string) (timeout : nat)
| check_port (host : string) (port : N) (timeout : nat).

(** What stands on the right of [||]: [((FAILED++))], or an [echo] of a
    warning. *)
Inductive OnFailure := count_it | warn_only.

Record Check := mkCheck {
  label : string;
  test : Probe;
  on_failure : OnFailure
}.

(** The checks of the script in their order; 5 and 3 seconds are the
    defaults of the two functions. *)
Definition checks : list Check :=
  [ mkCheck "SSH" (check_port AI_SERVER 22 3) count_it;
    mkCheck "Ollama API"
      (check_http ("http://" ++ AI_SERVER ++ ":11434/api/tags") 5) count_it;
    mkCheck "Faster-Whisper STT"
      (check_http ("http://" ++ AI_SERVER ++ ":8000/health") 10) count_it;
    mkCheck "Kokoro TTS"
      (check_http ("http://" ++ AI_SERVER ++ ":8880/health") 10) count_it;
    mkCheck "PostgreSQL" (check_port AI_SERVER 5432 3) count_it;
    mkCheck "ChromaDB"
      (check_http ("http://" ++ AI_SERVER ++ ":8001/api/v1/heartbeat") 5)
      count_it;
    mkCheck "Voice Assistant"
      (check_http ("http://" ++ AI_SERVER ++ ":7860") 10) count_it;
    mkCheck "SSH" (check_port EAST_SERVER 22 3) count_it;
    mkCheck "Redis" (check_port EAST_SERVER 6379 3) count_it;
    mkCheck "Netdata"
      (check_http ("http://" ++ EAST_SERVER ++ ":19999/api/v1/info") 5)
      count_it;
    mkCheck "Nginx"
      (check_http ("http://" ++ EAST_SERVER ++ "/health") 5) count_it;
    mkCheck "SSH" (check_port WINDOWS_HOST 22 3) warn_only;
    mkCheck "RDP" (check_port WINDOWS_HOST 3389 3) count_it;
    mkCheck "llama.cpp (if running)"
      (check_http ("http://" ++ WINDOWS_HOST ++ ":8080/health") 3) warn_only ].

(** A run of the script: the checks it made and its exit status. *)
Record Run := mkRun {
  made : list Check;
  exit_status : nat
}.

Definition then_made (c : Check) (r : Run) : Run :=
  mkRun (c :: made r) (exit_status r).

(** The script runs under [set -e]. A check that succeeds goes on to the
    next one, and so does a failed check followed by an [echo]. After a
    failed check, [((FAILED++))] has the status 1 when the value of
    [FAILED++], the counter before the increment, is 0, and the status 0
    otherwise; as the last command of its [||] list, a status of 1 ends
    the script there with that status. At the end, [exit $FAILED]. *)
Fixpoint run (succeeds : Check -> bool) (FAILED : nat) (todo : list Check)
  : Run :=
  match todo with
  | [] => mkRun [] (FAILED mod 256)
  | c :: rest =>
      if succeeds c then then_made c (run succeeds FAILED rest)
      else
        match on_failure c with
        | warn_only => then_made c (run succeeds FAILED rest)
        | count_it =>
            if Nat.eqb FAILED 0 then mkRun [c] 1
            else then_made c (run succeeds (S FAILED) rest)
        end
  end.

Definition script (succeeds : Check -> bool) : Run := run succeeds 0 checks.

(** A check whose failure counts and which fails. *)
Definition fails_counted (succeeds : Check -> bool) (c : Check) : bool :=
  negb (succeeds c)
  && match on_failure c with count_it => true | warn_only => false end.

(** The checks up to the first one that fails and counts, that one
    included. *)
Fixpoint up_to_first_failure (succeeds : Check -> bool) (todo : list Check)
  : list Check :=
  match todo with
  | [] => []
  | c :: rest =>
      if fails_counted succeeds c then [c]
      else c :: up_to_first_failure succeeds rest
  end.

End HealthCheck.

(* ===================================================================== *)
(** ** Example runtimes *)
(* ===================================================================== *)

Module Examples.

(** A compact printer standing in for [JSON.stringify] in the example
    runtimes: it ignores the indentation and escapes nothing. The
    theorems hold for every printer. *)
Definition print_Z (n : Z) : jsstring :=
  match n with
  | Zneg p => str "-" ++ decimal (Npos p)
  | _ => decimal (Z.to_N n)
  end.

Definition quoted (s : jsstring) : jsstring := str "'" ++ s ++ str "'".

Fixpoint print (v : jsval) : jsstring :=
  match v with
  | JUndefined => str "undefined"
  | JNull => str "null"
  | JBool true => str "true"
  | JBool false => str "false"
  | JNum n => print_Z n
  | JStr s => quoted s
  | JArr items =>
      str "[" ++ List.concat (map (fun x => print x ++ str ",") items) ++ str "]"
  | JObj fields =>
      str "{"
      ++ List.concat (map (fun kv => quoted (fst kv) ++ str ":" ++ print (snd kv)
                                ++ str ",") fields)
      ++ str "}"
  end.

Definition no_env : ProcessEnv := mkProcessEnv None None None None.

(** An Ollama instance that answers every request at once. *)
Definition answer : Response :=
  mkResponse 200 (str "{...}")
    (inr (JObj [(str "models", JArr [JObj [(str "name", JStr (str "qwen2.5:7b"))]]);
                (str "message", JObj [(str "role", JStr (str "assistant"));
                                      (str "content", JStr (str "Hello!"))]);
                (str "response", JStr (str "Hello!"))])).

Fixpoint starts_with (prefix s : jsstring) : bool :=
  match prefix, s with
  | [], _ => true
  | p :: prefix', c :: s' => (p =? c)%N && starts_with prefix' s'
  | _ :: _, [] => false
  end.

Definition to_local (req : Request) : bool :=
  starts_with (str "http://localhost:8080") (url req).

Definition both_up : Network := fun _ _ => NetReply 0 answer.

(** Nothing listens on the local port; the remote instance answers. *)
Definition local_down : Network :=
  fun _ req =>
    if to_local req then NetError 1 (mkError (str "fetch failed"))
    else NetReply 40 answer.

(** The local instance answers, the remote one refuses connections. *)
Definition remote_down : Network :=
  fun _ req =>
    if to_local req then NetReply 3 answer
    else NetError 1 (mkError (str "fetch failed")).

(** The local instance takes six seconds to answer. *)
Definition local_slow : Network :=
  fun _ req =>
    if to_local req then NetReply 6000 answer else NetReply 40 answer.

(** Nothing ever answers. *)
Definition silent : Network := fun _ _ => NetSilent.

(** Both instances refuse connections. *)
Definition both_down : Network :=
  fun _ _ => NetError 1 (mkError (str "fetch failed")).

(** An instance that answers 404 to everything. *)
Definition not_found : Network :=
  fun _ _ =>
    NetReply 2 (mkResponse 404 (str "model not found")
                  (inl (mkError (str "Unexpected token")))).

(** An instance that answers 200 with a body that is no JSON. *)
Definition not_json : Network :=
  fun _ _ =>
    NetReply 2 (mkResponse 200 (str "<html>")
                  (inl (mkError (str "Unexpected token '<'")))).

(** An instance that answers 200 with an empty object. *)
Definition empty_object : Network :=
  fun _ _ => NetReply 2 (mkResponse 200 (str "{}") (inr (JObj []))).

Definition runtime (net : Network) : Runtime :=
  mkRuntime no_env net (fun _ => print).

(** An environment with a final slash on the local address and an
    empty local model. *)
Definition slash_env : ProcessEnv :=
  mkProcessEnv (Some (str "http://gpu-box:8080" ++ str "/")) None
    (Some []) None.

Definition runtime_in (env : ProcessEnv) (net : Network) : Runtime :=
  mkRuntime env net (fun _ => print).

Definition start : World := mkWorld 0 [].

(** A greeting of nineteen words after a leading blank. *)
Definition padded_greeting : jsstring :=
  str " hi a a a a a a a a a a a a a a a a a a".

(** The nineteen words of the padded greeting, without the blank. *)
Definition plain_greeting : jsstring :=
  str "hi a a a a a a a a a a a a a a a a a a".

(** A greeting of twenty words that asks for code. *)
Definition long_greeting : jsstring :=
  str "hello please fix a a a a a a a a a a a a a a a a a".

(** A hundred and one words, none of them a greeting. *)
Definition long_text : jsstring :=
  List.concat (repeat (str "a ") 100) ++ str "a".

Definition chat_args (message : string) (more : list (jsstring * jsval))
  : jsval :=
  JObj ((str "message", JStr (str message)) :: more).

End Examples.

(* ===================================================================== *)
(** ** The classifier *)
(* ===================================================================== *)

Section Classifier.

Import Regex.

(** The number of pieces, after a token and after white space. *)
Lemma split_spaces_length (text : jsstring) :
  (forall piece,
      List.length (split_spaces_from false piece text)
      = count_tokens_from true text + 1
        + (if ends_in_space false text then 1 else 0))
  /\ List.length (split_spaces_from true [] text)
     = count_tokens_from false text
       + (if ends_in_space true text then 1 else 0).
Proof.
  induction text as [|c text [IHtoken IHspace]]; simpl.
  - split; reflexivity.
  - destruct (is_space c); simpl; split; intros.
    + rewrite IHspace. lia.
    + exact IHspace.
    + apply IHtoken.
    + rewrite IHtoken. lia.
Qed.

(** [split(/\s+/).length] against the number of tokens. *)
Lemma wordCount_tokenCount (text : jsstring) :
  wordCount text = tokenCount text + padding text.
Proof.
  unfold wordCount, tokenCount, split_spaces.
  destruct text as [|c text]; simpl.
  - reflexivity.
  - destruct (split_spaces_length text) as [Htoken Hspace].
    destruct (is_space c); simpl.
    + rewrite Hspace. lia.
    + rewrite Htoken. lia.
Qed.

Lemma wordCount_bounds (text : jsstring) :
  tokenCount text <= wordCount text <= tokenCount text + 2.
Proof.
  rewrite wordCount_tokenCount.
  assert (padding text <= 2); [|lia].
  destruct text as [|c text]; simpl.
  - lia.
  - destruct (is_space c), (ends_in_space _ text); simpl; lia.
Qed.

(** Without white space at either end the two counts agree. *)
Lemma wordCount_trimmed (c : N) (text : jsstring) :
  is_space c = false ->
  ends_in_space false text = false ->
  wordCount (c :: text) = tokenCount (c :: text).
Proof.
  intros Hfirst Hlast. rewrite wordCount_tokenCount. simpl.
  rewrite Hfirst, Hlast. lia.
Qed.

(** The three classes, each by the condition that gives it. *)
Lemma estimateComplexity_cases (text : jsstring) :
  (estimateComplexity text = simple
   <-> hasSimpleRequest text = true /\ wordCount text < 20)
  /\ (estimateComplexity text = complex
      <-> ~ (hasSimpleRequest text = true /\ wordCount text < 20)
          /\ (hasCodeRequest text = true \/ hasAnalysisRequest text = true
              \/ 100 < wordCount text))
  /\ (estimateComplexity text = medium
      <-> ~ (hasSimpleRequest text = true /\ wordCount text < 20)
          /\ hasCodeRequest text = false /\ hasAnalysisRequest text = false
          /\ wordCount text <= 100).
Proof.
  unfold estimateComplexity.
  destruct (Nat.ltb_spec (wordCount text) 20) as [H20 | H20];
    destruct (Nat.ltb_spec 100 (wordCount text)) as [H100 | H100];
    destruct (hasSimpleRequest text), (hasCodeRequest text),
      (hasAnalysisRequest text); cbn [andb orb];
    repeat split; intros; repeat split;
    try discriminate; try lia; try tauto;
    try (intros [_ Hlt]; lia);
    try (intros [Heq _]; discriminate Heq);
    intuition (try discriminate; try lia).
Qed.

(** C4, on the program. The claim counts the words of a text as its
    whitespace-delimited tokens; [wordCount] counts the pieces of
    [split(/\s+/)], which are the tokens and an empty piece for white
    space at either end. The padded greeting, nineteen words after a
    blank, matches the greeting pattern and has fewer than 20 tokens,
    but its [wordCount] is 20 and its class [medium]; the same nineteen
    words without the blank are [simple]. *)
Theorem wordCount_counts_padding :
  (forall text, wordCount text = tokenCount text + padding text)
  /\ hasSimpleRequest Examples.padded_greeting = true
  /\ tokenCount Examples.padded_greeting = 19
  /\ wordCount Examples.padded_greeting = 20
  /\ estimateComplexity Examples.padded_greeting = medium
  /\ Examples.padded_greeting = 32%N :: Examples.plain_greeting
  /\ tokenCount Examples.plain_greeting = 19
  /\ wordCount Examples.plain_greeting = 19
  /\ estimateComplexity Examples.plain_greeting = simple.
Proof.
  split; [exact wordCount_tokenCount|].
  repeat (split; [reflexivity|]). reflexivity.
Qed.

(** X23. The order of the classifier, in tokens. A text of more than
    100 tokens without a greeting match is [complex], whatever its ends.
    For a text that is not empty and has no white space at either end
    the word count is the number of tokens, and the class is [simple]
    exactly when the greeting pattern matches and there are fewer than
    20 tokens; failing that, [complex] exactly when the code pattern or
    the analysis pattern matches or there are more than 100 tokens
    (a greeting of 20 tokens or more with a request for code included);
    and [medium] exactly when none of these holds. *)
Theorem classification_in_tokens (text : jsstring) :
  (hasSimpleRequest text = false -> 100 < tokenCount text ->
   estimateComplexity text = complex)
  /\ (padding text = 0 ->
      wordCount text = tokenCount text
      /\ (estimateComplexity text = simple
          <-> hasSimpleRequest text = true /\ tokenCount text < 20)
      /\ (estimateComplexity text = complex
          <-> ~ (hasSimpleRequest text = true /\ tokenCount text < 20)
              /\ (hasCodeRequest text = true
                  \/ hasAnalysisRequest text = true
                  \/ 100 < tokenCount text))
      /\ (estimateComplexity text = medium
          <-> ~ (hasSimpleRequest text = true /\ tokenCount text < 20)
              /\ hasCodeRequest text = false
              /\ hasAnalysisRequest text = false
              /\ tokenCount text <= 100)).
Proof.
  pose proof (wordCount_tokenCount text) as Hcount.
  destruct (estimateComplexity_cases text) as (Hsimple & Hcomplex & Hmedium).
  split.
  - intros Hs Htokens. apply Hcomplex. split.
    + intros [H _]. rewrite Hs in H. discriminate H.
    + right. right. lia.
  - intros Hpad. rewrite Hpad, Nat.add_0_r in Hcount.
    rewrite Hcount in Hsimple, Hcomplex, Hmedium.
    split; [exact Hcount|]. split; [exact Hsimple|].
    split; [exact Hcomplex | exact Hmedium].
Qed.

Lemma classification_in_tokens_witness :
  estimateComplexity Examples.long_text = complex
  /\ estimateComplexity (str "thanks, now implement the parser") = simple
  /\ estimateComplexity Examples.long_greeting = complex.
Proof.
  split; [|split].
  - apply (proj1 (classification_in_tokens Examples.long_text)).
    + reflexivity.
    + vm_compute. lia.
  - apply (proj1 (proj2 (proj2 (classification_in_tokens
             (str "thanks, now implement the parser")) eq_refl))).
    split; [reflexivity | vm_compute; lia].
  - apply (proj1 (proj2 (proj2 (proj2 (classification_in_tokens
             Examples.long_greeting) eq_refl)))).
    split.
    + intros [_ H]. vm_compute in H. lia.
    + left. reflexivity.
Defined.

(** C9. The patterns match anywhere in the text: "fix this bug" matches
    the code pattern (at "fix") and has three words, yet it is [simple],
    because the greeting pattern matches "hi" inside "this" and the
    simple check comes first. *)
Theorem fix_this_bug_is_simple :
  exists text,
    text = str "fix this bug"
    /\ hasCodeRequest text = true
    /\ match_here_i (str "fix") text = true
    /\ wordCount text = 3
    /\ hasSimpleRequest text = true
    /\ match_here_i (str "hi") (str "his bug") = true
    /\ hasSimpleRequest (str "fix t") = false
    /\ estimateComplexity text = simple.
Proof.
  exists (str "fix this bug"). repeat (split; [reflexivity|]). reflexivity.
Qed.

End Classifier.

(* ===================================================================== *)
(** ** The liveness probe *)
(* ===================================================================== *)

Section Liveness.

Context {rt : Runtime}.

(** Every call of [isAvailable] returns, after one probe sent at the
    time of the call and within five seconds. *)
Lemma isAvailable_run (this : OllamaClient) (w : World) :
  exists w',
    isAvailable this w
    = (Returned (answers_in_time (network w (probe this))), w')
    /\ sent w' = (now w, probe this) :: sent w
    /\ (now w <= now w' <= now w + 5000)%N.
Proof.
  unfold isAvailable, try_catch, bind, fetch, ret.
  change (signal (probe this)) with (Some 5000%N).
  destruct (network w (probe this)) as [d e | d r |]; simpl.
  - destruct (d <? 5000)%N eqn:Hd; eexists; (split; [reflexivity|]);
      simpl; (split; [reflexivity|]).
    + apply N.ltb_lt in Hd. lia.
    + lia.
  - destruct (d <? 5000)%N eqn:Hd; eexists; (split; [reflexivity|]);
      simpl; (split; [reflexivity|]).
    + apply N.ltb_lt in Hd. lia.
    + lia.
  - eexists; (split; [reflexivity|]); simpl; (split; [reflexivity|]). lia.
Qed.

(** C7. The liveness probe is total: [isAvailable] returns a boolean for
    every client, network and world, and it never throws nor stays
    pending. A network error, a silent network and an answer that takes
    the five seconds of the timeout or more all give [false]; the call
    is over five seconds after it began at the latest. *)
Theorem isAvailable_total (this : OllamaClient) (w : World) :
  (exists b, fst (isAvailable this w) = Returned b)
  /\ (forall d e, network w (probe this) = NetError d e ->
      fst (isAvailable this w) = Returned false)
  /\ (network w (probe this) = NetSilent ->
      fst (isAvailable this w) = Returned false)
  /\ (forall d r, network w (probe this) = NetReply d r -> (5000 <= d)%N ->
      fst (isAvailable this w) = Returned false)
  /\ (now (snd (isAvailable this w)) <= now w + 5000)%N.
Proof.
  destruct (isAvailable_run this w) as (w' & Hrun & _ & Hnow).
  rewrite Hrun. simpl.
  split; [eexists; reflexivity|].
  split; [intros d e H; now rewrite H|].
  split; [intros H; now rewrite H|].
  split; [|lia].
  intros d r H Hd. rewrite H. simpl.
  apply N.ltb_ge in Hd. now rewrite Hd.
Qed.

(** C1, on the program: [isAvailable] keeps no record of its last
    answer. Two calls in a row send two probes to the same client, the
    second at most five seconds after the first, well within ten
    seconds; the second answer is what the network says then. *)
Theorem isAvailable_twice_probes_twice (this : OllamaClient) (w : World) :
  exists t w1 w2,
    isAvailable this w
    = (Returned (answers_in_time (network w (probe this))), w1)
    /\ two_calls this w
       = (Returned (answers_in_time (network w1 (probe this))), w2)
    /\ sent w2 = (t, probe this) :: (now w, probe this) :: sent w
    /\ (t <= now w + 5000)%N.
Proof.
  destruct (isAvailable_run this w) as (w1 & Hrun1 & Hsent1 & Hnow1).
  destruct (isAvailable_run this w1) as (w2 & Hrun2 & Hsent2 & Hnow2).
  exists (now w1), w1, w2.
  split; [exact Hrun1|].
  unfold two_calls, bind. rewrite Hrun1, Hrun2.
  split; [reflexivity|].
  rewrite Hsent2, Hsent1. split; [reflexivity | lia].
Qed.

End Liveness.

(* ===================================================================== *)
(** ** The routing of a chat request *)
(* ===================================================================== *)

Lemma jsstring_eqb_eq (a b : jsstring) : jsstring_eqb a b = true <-> a = b.
Proof.
  revert b. induction a as [|x a IH]; intros [|y b]; simpl;
    try (split; [discriminate | discriminate]).
  - split; reflexivity.
  - rewrite andb_true_iff, N.eqb_eq, IH.
    split; [intros [-> ->]; reflexivity | intros H; injection H; auto].
Qed.

Lemma strict_eq_str_false (v : jsval) (lit : jsstring) :
  v <> JStr lit -> strict_eq_str v lit = false.
Proof.
  intros Hv. destruct v; simpl; try reflexivity.
  destruct (jsstring_eqb s lit) eqn:E; [|reflexivity].
  apply jsstring_eqb_eq in E. subst. contradiction.
Qed.

Section RoutingFacts.

Context {rt : Runtime}.

(** The auto branch on a message of the tier [simple]: one probe of the
    local client decides. *)
Lemma autoRouting_simple (message : jsstring) (w : World) :
  estimateComplexity message = simple ->
  exists w',
    isAvailable localClient w
    = (Returned (answers_in_time (network w (probe localClient))), w')
    /\ autoRouting (JStr message) w
       = (Returned
            (if answers_in_time (network w (probe localClient))
             then mkRouting localClient (JStr DEFAULT_LOCAL_MODEL)
             else mkRouting remoteClient (JStr DEFAULT_LOCAL_MODEL)), w').
Proof.
  intros Htier.
  destruct (isAvailable_run localClient w) as (w' & Hrun & _).
  exists w'. split; [exact Hrun|].
  unfold autoRouting, bind, lift, ret, call_estimateComplexity.
  rewrite Htier. simpl. rewrite Hrun.
  now destruct (answers_in_time _).
Qed.

(** The auto branch on any other tier: the remote client, and no probe. *)
Lemma autoRouting_not_simple (message : jsstring) (w : World) :
  estimateComplexity message <> simple ->
  autoRouting (JStr message) w
  = (Returned
       (mkRouting remoteClient
          (JStr (match estimateComplexity message with
                 | complex => DEFAULT_REMOTE_MODEL
                 | _ => DEFAULT_LOCAL_MODEL
                 end))), w).
Proof.
  intros Htier.
  unfold autoRouting, bind, lift, ret, call_estimateComplexity.
  destruct (estimateComplexity message); [contradiction | reflexivity..].
Qed.

(** Without a model, a preference that is neither [fast] nor [smart]
    leaves the routing to the auto branch. *)
Lemma determineRouting_else (message model prefer : jsval) :
  truthy model = false ->
  strict_eq_str prefer (str "fast") = false ->
  strict_eq_str prefer (str "smart") = false ->
  determineRouting message model prefer = autoRouting message.
Proof.
  intros Hm Hf Hs. unfold determineRouting. now rewrite Hm, Hf, Hs.
Qed.

Lemma determineRouting_auto (message model : jsval) :
  truthy model = false ->
  determineRouting message model (JStr (str "auto")) = autoRouting message.
Proof.
  intros Hm. now apply determineRouting_else.
Qed.

(** C2. With the preference [auto], no model and a message of the tier
    [simple], the routing asks the local client once whether it is
    available, and it picks the local client with the local default
    model if and only if the answer is [true]; otherwise it picks the
    remote client. *)
Theorem auto_simple_local_iff_available
    (message : jsstring) (model : jsval) (w : World) :
  truthy model = false ->
  estimateComplexity message = simple ->
  exists available routing w',
    isAvailable localClient w = (Returned available, w')
    /\ determineRouting (JStr message) model (JStr (str "auto")) w
       = (Returned routing, w')
    /\ (routing = mkRouting localClient (JStr DEFAULT_LOCAL_MODEL)
        <-> available = true)
    /\ (available = false -> client routing = remoteClient).
Proof.
  intros Hm Htier.
  destruct (autoRouting_simple message w Htier) as (w' & Hrun & Hroute).
  rewrite (determineRouting_auto (JStr message) model Hm).
  eexists _, _, w'. split; [exact Hrun|]. split; [exact Hroute|].
  destruct (answers_in_time _); split.
  - split; reflexivity.
  - discriminate.
  - split; discriminate.
  - reflexivity.
Qed.

(** C3. With the preference [auto] and no model, a request that does not
    go to the local client, because its tier is not [simple] or because
    the local client answers that it is not available, goes to the remote
    client: with the remote default model when the tier is [complex],
    with the name of the local default model for every other tier. *)
Theorem auto_remote_model (message : jsstring) (model : jsval) (w : World) :
  truthy model = false ->
  estimateComplexity message <> simple
  \/ fst (isAvailable localClient w) = Returned false ->
  fst (determineRouting (JStr message) model (JStr (str "auto")) w)
  = Returned
      (mkRouting remoteClient
         (JStr (match estimateComplexity message with
                | complex => DEFAULT_REMOTE_MODEL
                | _ => DEFAULT_LOCAL_MODEL
                end))).
Proof.
  intros Hm Hwhy.
  rewrite (determineRouting_auto (JStr message) model Hm).
  destruct (estimateComplexity message) eqn:Htier.
  - destruct Hwhy as [Hwhy | Hdown]; [contradiction|].
    destruct (autoRouting_simple message w Htier) as (w' & Hrun & Hroute).
    rewrite Hroute. rewrite Hrun in Hdown. simpl in Hdown.
    injection Hdown as ->. reflexivity.
  - rewrite autoRouting_not_simple by (rewrite Htier; discriminate).
    now rewrite Htier.
  - rewrite autoRouting_not_simple by (rewrite Htier; discriminate).
    now rewrite Htier.
Qed.

(** C6. With the preference [fast] and no model, the routing picks the
    local client with the local default model, whatever the message,
    the network and the world, and it leaves the world as it was: no
    request is sent, so none asks whether the local client is there. *)
Theorem fast_routes_local (message model : jsval) (w : World) :
  truthy model = false ->
  determineRouting message model (JStr (str "fast")) w
  = (Returned (mkRouting localClient (JStr DEFAULT_LOCAL_MODEL)), w).
Proof.
  intros Hm. unfold determineRouting. rewrite Hm. reflexivity.
Qed.

(** [case_chat] reads its arguments through four properties only. *)
Lemma case_chat_steps (args : jsval) :
  nullish args = false ->
  case_chat args
  = (routing <- determineRouting (field args (str "message"))
                  (field args (str "model"))
                  (with_default (field args (str "prefer"))
                                (JStr (str "auto"))) ;;
     response <- chat (client routing) (modelToUse routing)
                   (build_messages (field args (str "system"))
                                   (field args (str "message"))) [] ;;
     ret (mkToolResult [text_item response]
            (Some (mkMetadata (modelToUse routing) (baseUrl (client routing))))
            false))%async.
Proof.
  intros Hargs. unfold case_chat, destructurable. rewrite Hargs. reflexivity.
Qed.

Lemma field_not_nullish (args : jsval) (key : jsstring) :
  field args key <> JUndefined -> nullish args = false.
Proof.
  destruct args; simpl; intros H; try reflexivity; now contradiction H.
Qed.

Lemma fast_routes_local_eq (message model : jsval) (w : World) :
  truthy model = false ->
  determineRouting message model (JStr (str "fast")) w
  = (Returned (mkRouting localClient (JStr DEFAULT_LOCAL_MODEL)), w).
Proof.
  intros Hm. unfold determineRouting. rewrite Hm. reflexivity.
Qed.

(** With the preference [smart] and no model: the remote client and its
    default model, and no request sent. *)
Lemma smart_routes_remote (message model : jsval) (w : World) :
  truthy model = false ->
  determineRouting message model (JStr (str "smart")) w
  = (Returned (mkRouting remoteClient (JStr DEFAULT_REMOTE_MODEL)), w).
Proof.
  intros Hm. unfold determineRouting. rewrite Hm. reflexivity.
Qed.

(** With a model: the local client when it answers the probe, else the
    remote one, and the model as given. *)
Lemma explicit_model_routing (message model prefer : jsval) (w : World) :
  truthy model = true ->
  exists w',
    determineRouting message model prefer w
    = (Returned
         (mkRouting (if answers_in_time (network w (probe localClient))
                     then localClient else remoteClient) model), w').
Proof.
  intros Hm.
  destruct (isAvailable_run localClient w) as (w' & Hrun & _).
  exists w'. unfold determineRouting, bind, ret. now rewrite Hm, Hrun.
Qed.

End RoutingFacts.

(* ===================================================================== *)
(** ** The boundary of the tools *)
(* ===================================================================== *)

Section Boundary.

Context {rt : Runtime}.

(** What the [catch] makes of each outcome of the [switch]. *)
Lemma callTool_outcome (name : jsstring) (args : jsval) (w : World) :
  callTool name args w
  = match switch_name name args w with
    | (Returned result, w') => (Returned result, w')
    | (Thrown e, w') => (Returned (error_result e), w')
    | (Pending, w') => (Pending, w')
    end.
Proof.
  unfold callTool, try_catch, ret.
  now destruct (switch_name name args w) as [[result | e |] w'].
Qed.

Lemma callTool_chat_thrown (args : jsval) (w w' : World) (e : Error) :
  case_chat args w = (Thrown e, w') ->
  callTool (str "chat") args w = (Returned (error_result e), w').
Proof.
  intros Hcase. rewrite callTool_outcome. unfold switch_name.
  change (jsstring_eqb (str "chat") (str "chat")) with true. cbv iota.
  now rewrite Hcase.
Qed.

(** A request that the network fails, and that carries no signal, is a
    rejected [fetch]. *)
Lemma fetch_NetError (req : Request) (w : World) (d : N) (e : Error) :
  signal req = None ->
  network w req = NetError d e ->
  fetch req w = (Thrown e, advance d (mkWorld (now w) ((now w, req) :: sent w))).
Proof.
  intros Hsignal Hnet. unfold fetch. now rewrite Hnet, Hsignal.
Qed.

(** C5. No call of the tool [chat] ends in a thrown error, whatever its
    arguments, the network and the world. What is thrown inside, by the
    reading of the arguments, by the routing or by the call of the
    chosen client, comes back as the error result: one text item,
    "Error: " and the message of the error, with [isError] set. This
    holds in particular when the network fails the request to the chosen
    client. *)
Theorem chat_never_raises (args : jsval) (w : World) :
  (forall e, fst (callTool (str "chat") args w) <> Thrown e)
  /\ (forall e w',
        case_chat args w = (Thrown e, w') ->
        callTool (str "chat") args w = (Returned (error_result e), w'))
  /\ (forall routing w1 e w2,
        nullish args = false ->
        determineRouting (field args (str "message"))
          (field args (str "model"))
          (with_default (field args (str "prefer")) (JStr (str "auto"))) w
        = (Returned routing, w1) ->
        chat (client routing) (modelToUse routing)
          (build_messages (field args (str "system"))
                          (field args (str "message"))) [] w1
        = (Thrown e, w2) ->
        callTool (str "chat") args w = (Returned (error_result e), w2))
  /\ (forall routing w1 d e,
        nullish args = false ->
        determineRouting (field args (str "message"))
          (field args (str "model"))
          (with_default (field args (str "prefer")) (JStr (str "auto"))) w
        = (Returned routing, w1) ->
        network w1
          (chat_request (client routing) (modelToUse routing)
             (build_messages (field args (str "system"))
                             (field args (str "message"))) [])
        = NetError d e ->
        fst (callTool (str "chat") args w) = Returned (error_result e))
  /\ (forall e,
        error_result e
        = mkToolResult
            [mkContentItem (str "text") (JStr (str "Error: " ++ message e))]
            None true).
Proof.
  assert (Hstep : forall routing w1 e w2,
    nullish args = false ->
    determineRouting (field args (str "message"))
      (field args (str "model"))
      (with_default (field args (str "prefer")) (JStr (str "auto"))) w
    = (Returned routing, w1) ->
    chat (client routing) (modelToUse routing)
      (build_messages (field args (str "system"))
                      (field args (str "message"))) [] w1
    = (Thrown e, w2) ->
    callTool (str "chat") args w = (Returned (error_result e), w2)).
  { intros routing w1 e w2 Hargs Hroute Hchat.
    apply callTool_chat_thrown.
    rewrite (case_chat_steps args Hargs).
    unfold bind at 1. rewrite Hroute.
    unfold bind at 1. now rewrite Hchat. }
  split; [|split; [|split; [|split]]].
  - intros e. rewrite callTool_outcome.
    now destruct (switch_name (str "chat") args w) as [[result | e' |] w'].
  - intros e w'. apply callTool_chat_thrown.
  - exact Hstep.
  - intros routing w1 d e Hargs Hroute Hnet.
    erewrite Hstep; [reflexivity | exact Hargs | exact Hroute |].
    unfold chat, bind.
    rewrite (fetch_NetError (chat_request _ _ _ _) w1 eq_refl Hnet).
    reflexivity.
  - reflexivity.
Qed.

(** [listModels] sends its request, whatever comes of it. *)
Lemma listModels_sends (this : OllamaClient) (w : World) :
  sent (snd (listModels this w)) = (now w, tags_request this) :: sent w.
Proof.
  unfold listModels, bind, fetch.
  change (signal (tags_request this)) with (@None N).
  destruct (network w (tags_request this)) as [d e | d r |]; simpl;
    try reflexivity.
  destruct (ok r); simpl; [|reflexivity].
  destruct (body_json r) as [e | data]; simpl; [reflexivity|].
  destruct (get_property data (str "models")); reflexivity.
Qed.

Lemma callTool_list_models (args : jsval) (w : World) :
  callTool (str "list_models") args w
  = match list_models_results w with
    | (Returned results, w') =>
        (Returned
           (mkToolResult
              [text_item (JStr (JSON_stringify 2 (results_object results)))]
              None false), w')
    | (Thrown e, w') => (Returned (error_result e), w')
    | (Pending, w') => (Pending, w')
    end.
Proof.
  rewrite callTool_outcome. unfold switch_name.
  change (jsstring_eqb (str "list_models") (str "chat")) with false.
  change (jsstring_eqb (str "list_models") (str "generate")) with false.
  change (jsstring_eqb (str "list_models") (str "list_models")) with true.
  cbv iota. unfold case_list_models, bind, ret.
  now destruct (list_models_results w) as [[results | e |] w'].
Qed.

(** C8. [list_models] asks the two clients one after the other, each
    under its own [try]. When the listing of one of them throws and the
    other lists its models, the result holds, in the slot of the one
    that failed, a sequence of one element that carries the message of
    the error, and in the other slot the models listed. A failure of the
    local client does not keep the request to the remote one from being
    sent. *)
Theorem list_models_partial_results (args : jsval) (w : World) :
  (forall e w1 models w2,
      listModels localClient w = (Thrown e, w1) ->
      listModels remoteClient w1 = (Returned models, w2) ->
      list_models_results w
      = (Returned (JArr [JObj [(str "error", JStr (message e))]], models), w2)
      /\ callTool (str "list_models") args w
         = (Returned
              (mkToolResult
                 [text_item
                    (JStr (JSON_stringify 2
                       (JObj [(str "local",
                               JArr [JObj [(str "error", JStr (message e))]]);
                              (str "remote", models)])))]
                 None false), w2))
  /\ (forall models w1 e w2,
        listModels localClient w = (Returned models, w1) ->
        listModels remoteClient w1 = (Thrown e, w2) ->
        list_models_results w
        = (Returned (models, JArr [JObj [(str "error", JStr (message e))]]), w2)
        /\ callTool (str "list_models") args w
           = (Returned
                (mkToolResult
                   [text_item
                      (JStr (JSON_stringify 2
                         (JObj [(str "local", models);
                                (str "remote",
                                 JArr [JObj [(str "error",
                                              JStr (message e))]])])))]
                   None false), w2))
  /\ (forall e w1,
        listModels localClient w = (Thrown e, w1) ->
        sent (snd (list_models_results w))
        = (now w1, tags_request remoteClient) :: sent w1).
Proof.
  split; [|split].
  - intros e w1 models w2 Hlocal Hremote.
    assert (Hresults : list_models_results w
      = (Returned (JArr [JObj [(str "error", JStr (message e))]], models), w2)).
    { unfold list_models_results, bind, try_catch, ret, error_marker.
      now rewrite Hlocal, Hremote. }
    split; [exact Hresults|].
    rewrite callTool_list_models, Hresults. reflexivity.
  - intros models w1 e w2 Hlocal Hremote.
    assert (Hresults : list_models_results w
      = (Returned (models, JArr [JObj [(str "error", JStr (message e))]]), w2)).
    { unfold list_models_results, bind, try_catch, ret, error_marker.
      now rewrite Hlocal, Hremote. }
    split; [exact Hresults|].
    rewrite callTool_list_models, Hresults. reflexivity.
  - intros e w1 Hlocal.
    rewrite <- (listModels_sends remoteClient w1).
    unfold list_models_results, bind, try_catch, ret.
    rewrite Hlocal.
    now destruct (listModels remoteClient w1) as [[models | e' |] w2].
Qed.

End Boundary.

(* ===================================================================== *)
(** ** The theorems on the example runtimes *)
(* ===================================================================== *)

(** A local instance that takes six seconds is not available. *)
Lemma isAvailable_total_witness :
  fst (@isAvailable (Examples.runtime Examples.local_slow) localClient
         Examples.start)
  = Returned false.
Proof.
  apply (proj1 (proj2 (proj2 (proj2
           (@isAvailable_total (Examples.runtime Examples.local_slow)
              localClient Examples.start))))
           6000%N Examples.answer).
  - reflexivity.
  - vm_compute. discriminate.
Defined.

(** Two calls at once against an instance that answers at once: two
    probes at time 0. *)
Example isAvailable_twice_at_once :
  @two_calls (Examples.runtime Examples.both_up) localClient Examples.start
  = (Returned true,
     mkWorld 0
       [(0%N, @probe (Examples.runtime Examples.both_up) localClient);
        (0%N, @probe (Examples.runtime Examples.both_up) localClient)]).
Proof. reflexivity. Qed.

(** "hi" with the local instance down. *)
Lemma auto_simple_local_iff_available_witness :
  truthy JUndefined = false
  /\ estimateComplexity (str "hi") = simple
  /\ exists available routing w',
       @isAvailable (Examples.runtime Examples.local_down) localClient
         Examples.start
       = (Returned available, w')
       /\ @determineRouting (Examples.runtime Examples.local_down)
            (JStr (str "hi")) JUndefined (JStr (str "auto")) Examples.start
          = (Returned routing, w')
       /\ (routing
           = mkRouting localClient
               (JStr (@DEFAULT_LOCAL_MODEL
                        (Examples.runtime Examples.local_down)))
           <-> available = true)
       /\ (available = false -> client routing = remoteClient).
Proof.
  split; [reflexivity|]. split; [reflexivity|].
  apply (@auto_simple_local_iff_available
           (Examples.runtime Examples.local_down)); reflexivity.
Defined.

Lemma auto_remote_model_witness :
  fst (@determineRouting (Examples.runtime Examples.local_down)
         (JStr (str "hi")) JUndefined (JStr (str "auto")) Examples.start)
  = Returned (mkRouting remoteClient (JStr (str "qwen2.5:1.5b"))).
Proof.
  apply (@auto_remote_model (Examples.runtime Examples.local_down)
           (str "hi") JUndefined Examples.start).
  - reflexivity.
  - right. reflexivity.
Defined.

Lemma fast_routes_local_witness :
  @determineRouting (Examples.runtime Examples.local_down)
    (JStr (str "hi")) JUndefined (JStr (str "fast")) Examples.start
  = (Returned (mkRouting localClient (JStr (str "qwen2.5:1.5b"))),
     Examples.start).
Proof.
  apply (@fast_routes_local (Examples.runtime Examples.local_down)
           (JStr (str "hi")) JUndefined Examples.start).
  reflexivity.
Defined.

(** [fast] with the local instance down: the error of [fetch] comes
    back as the error result. *)
Lemma chat_never_raises_witness :
  fst (@callTool (Examples.runtime Examples.local_down) (str "chat")
         (Examples.chat_args "hi" [(str "prefer", JStr (str "fast"))])
         Examples.start)
  = Returned (error_result (mkError (str "fetch failed"))).
Proof.
  apply (proj1 (proj2 (proj2 (proj2
           (@chat_never_raises (Examples.runtime Examples.local_down)
              (Examples.chat_args "hi" [(str "prefer", JStr (str "fast"))])
              Examples.start))))
           (mkRouting localClient (JStr (str "qwen2.5:1.5b")))
           Examples.start 1%N).
  - reflexivity.
  - reflexivity.
  - reflexivity.
Defined.

(** [list_models] with the local instance down and the remote one up. *)
Lemma list_models_partial_results_witness :
  fst (@list_models_results (Examples.runtime Examples.local_down)
         Examples.start)
  = Returned
      (JArr [JObj [(str "error", JStr (str "fetch failed"))]],
       JArr [JObj [(str "name", JStr (str "qwen2.5:7b"))]]).
Proof.
  rewrite (proj1 (proj1
             (@list_models_partial_results
                (Examples.runtime Examples.local_down) JUndefined
                Examples.start)
             (mkError (str "fetch failed"))
             (snd (@listModels (Examples.runtime Examples.local_down)
                     localClient Examples.start))
             (JArr [JObj [(str "name", JStr (str "qwen2.5:7b"))]])
             (snd (@listModels (Examples.runtime Examples.local_down)
                     remoteClient
                     (snd (@listModels (Examples.runtime Examples.local_down)
                             localClient Examples.start))))
             eq_refl eq_refl)).
  reflexivity.
Defined.

(** [list_models] with the remote instance down and the local one up. *)
Example list_models_remote_down :
  fst (@list_models_results (Examples.runtime Examples.remote_down)
         Examples.start)
  = Returned
      (JArr [JObj [(str "name", JStr (str "qwen2.5:7b"))]],
       JArr [JObj [(str "error", JStr (str "fetch failed"))]]).
Proof. reflexivity. Qed.

(** "hi" with both instances up goes to the local one. *)
Example auto_hi_local_up :
  fst (@determineRouting (Examples.runtime Examples.both_up)
         (JStr (str "hi")) JUndefined (JStr (str "auto")) Examples.start)
  = Returned (mkRouting localClient (JStr (str "qwen2.5:1.5b"))).
Proof. reflexivity. Qed.

(** [smart] with the local instance down. *)
Example smart_fix_this_bug :
  @determineRouting (Examples.runtime Examples.local_down)
    (JStr (str "fix this bug in my parser")) JUndefined (JStr (str "smart"))
    Examples.start
  = (Returned (mkRouting remoteClient (JStr (str "qwen2.5:7b"))),
     Examples.start).
Proof. reflexivity. Qed.

(** The request to the chosen client carries no signal: when nothing
    ever answers, the probe gives up after five seconds and the call of
    [chat] stays pending. *)
Example chat_on_silent_network :
  @callTool (Examples.runtime Examples.silent) (str "chat")
    (Examples.chat_args "hi" []) Examples.start
  = (Pending,
     mkWorld 5000
       [(5000%N,
         @chat_request (Examples.runtime Examples.silent) remoteClient
           (JStr (str "qwen2.5:1.5b"))
           [JObj [(str "role", JStr (str "user"));
                  (str "content", JStr (str "hi"))]] []);
        (0%N, @probe (Examples.runtime Examples.silent) localClient)]).
Proof. reflexivity. Qed.

(** A message that is no string is an error result, not a crash. *)
Example chat_without_message :
  fst (@callTool (Examples.runtime Examples.both_up) (str "chat")
         (JObj []) Examples.start)
  = Returned
      (error_result
         (mkError
            (str "Cannot read properties of undefined (reading 'split')"))).
Proof. reflexivity. Qed.

(* ===================================================================== *)
(** ** More on the patterns and the word count *)
(* ===================================================================== *)

Section Patterns.

Import Regex.

Lemma canonicalize_idempotent (c : N) :
  canonicalize (canonicalize c) = canonicalize c.
Proof.
  unfold canonicalize.
  destruct ((97 <=? c) && (c <=? 122))%N eqn:Hc; [|now rewrite Hc].
  apply andb_true_iff in Hc. destruct Hc as [Hlo Hhi].
  apply N.leb_le in Hlo. apply N.leb_le in Hhi.
  replace (97 <=? c - 32)%N with false; [reflexivity|].
  symmetry. apply N.leb_gt. lia.
Qed.

Lemma is_space_false_from_65 (c : N) :
  (65 <= c <= 122)%N -> is_space c = false.
Proof.
  intros Hc. unfold is_space.
  replace (c <=? 13)%N with false by (symmetry; apply N.leb_gt; lia).
  replace (8192 <=? c)%N with false by (symmetry; apply N.leb_gt; lia).
  repeat match goal with
         | |- context [(c =? ?k)%N] =>
             replace (c =? k)%N with false by (symmetry; apply N.eqb_neq; lia)
         end.
  now rewrite andb_false_r.
Qed.

Lemma is_space_canonicalize (c : N) : is_space (canonicalize c) = is_space c.
Proof.
  unfold canonicalize.
  destruct ((97 <=? c) && (c <=? 122))%N eqn:Hc; [|reflexivity].
  apply andb_true_iff in Hc. destruct Hc as [Hlo Hhi].
  apply N.leb_le in Hlo. apply N.leb_le in Hhi.
  rewrite !is_space_false_from_65 by lia. reflexivity.
Qed.

Lemma match_here_i_canonicalize (word text : jsstring) :
  match_here_i word (map canonicalize text) = match_here_i word text.
Proof.
  revert text. induction word as [|p word IH]; intros [|c text]; simpl;
    try reflexivity.
  unfold char_eq_i. now rewrite canonicalize_idempotent, IH.
Qed.

Lemma existsb_match_canonicalize (alternatives : list jsstring)
    (text : jsstring) :
  existsb (fun w => match_here_i w (map canonicalize text)) alternatives
  = existsb (fun w => match_here_i w text) alternatives.
Proof.
  induction alternatives as [|w alternatives IH]; simpl.
  - reflexivity.
  - now rewrite IH, match_here_i_canonicalize.
Qed.

Lemma test_i_canonicalize (alternatives : list jsstring) (text : jsstring) :
  test_i alternatives (map canonicalize text) = test_i alternatives text.
Proof.
  induction text as [|c text IH].
  - reflexivity.
  - change (map canonicalize (c :: text))
      with (canonicalize c :: map canonicalize text).
    cbn [test_i]. rewrite IH. f_equal.
    apply (existsb_match_canonicalize alternatives (c :: text)).
Qed.

(** The number of pieces does not depend on what the pieces hold. *)
Lemma split_spaces_from_canonicalize (text piece piece' : jsstring)
    (in_run : bool) :
  List.length (split_spaces_from in_run piece (map canonicalize text))
  = List.length (split_spaces_from in_run piece' text).
Proof.
  revert piece piece' in_run.
  induction text as [|c text IH]; intros piece piece' in_run; simpl.
  - reflexivity.
  - rewrite is_space_canonicalize.
    destruct (is_space c), in_run; simpl;
      try (f_equal; apply IH); apply IH.
Qed.

(** X4. The flag [i]: putting the ASCII letters of a prompt in upper
    case changes neither its word count nor its class. *)
Theorem estimateComplexity_upper_case (prompt : jsstring) :
  wordCount (map canonicalize prompt) = wordCount prompt
  /\ estimateComplexity (map canonicalize prompt) = estimateComplexity prompt.
Proof.
  assert (Hw : wordCount (map canonicalize prompt) = wordCount prompt)
    by apply split_spaces_from_canonicalize.
  split; [exact Hw|].
  unfold estimateComplexity, hasSimpleRequest, hasCodeRequest,
    hasAnalysisRequest.
  now rewrite !test_i_canonicalize, Hw.
Qed.

(** A word matches at the start of a text when the text begins with the
    word, up to the case of ASCII letters. *)
Lemma match_here_i_prefix (word text : jsstring) :
  match_here_i word text = true
  <-> exists mid post,
        text = mid ++ post
        /\ map canonicalize mid = map canonicalize word.
Proof.
  revert text. induction word as [|p word IH]; intros text; simpl.
  - split; [intros _; now exists [], text|reflexivity].
  - destruct text as [|c text].
    + split; [discriminate|].
      intros (mid & post & Htext & Hmid).
      destruct mid; [discriminate Hmid | discriminate Htext].
    + unfold char_eq_i. rewrite andb_true_iff, N.eqb_eq, IH. split.
      * intros (Hc & mid & post & -> & Hmid).
        exists (c :: mid), post. simpl. now rewrite Hmid, Hc.
      * intros (mid & post & Htext & Hmid).
        destruct mid as [|c' mid]; [discriminate Hmid|].
        simpl in Htext, Hmid.
        injection Htext as -> ->. injection Hmid as Hc Hmid.
        split; [now symmetry|]. now exists mid, post.
Qed.

Lemma test_i_suffix (alternatives : list jsstring) (text : jsstring) :
  test_i alternatives text = true
  <-> exists pre rest w,
        text = pre ++ rest /\ In w alternatives
        /\ match_here_i w rest = true.
Proof.
  induction text as [|c text IH].
  - cbn [test_i]. rewrite orb_false_r, existsb_exists. split.
    + intros (w & Hin & Hw). now exists [], [], w.
    + intros (pre & rest & w & Htext & Hin & Hw).
      symmetry in Htext. apply app_eq_nil in Htext.
      destruct Htext as [-> ->]. now exists w.
  - cbn [test_i]. rewrite orb_true_iff, existsb_exists, IH. split.
    + intros [(w & Hin & Hw) | (pre & rest & w & -> & Hin & Hw)].
      * now exists [], (c :: text), w.
      * now exists (c :: pre), rest, w.
    + intros (pre & rest & w & Htext & Hin & Hw).
      destruct pre as [|c' pre]; simpl in Htext.
      * left. exists w. now rewrite Htext.
      * injection Htext as -> ->. right. now exists pre, rest, w.
Qed.

(** An alternative that occurs in the text, up to the case of ASCII
    letters, makes the test true. *)
Lemma test_i_occurrence (alternatives : list jsstring)
    (pre mid post w : jsstring) :
  In w alternatives ->
  map canonicalize mid = map canonicalize w ->
  test_i alternatives (pre ++ mid ++ post) = true.
Proof.
  intros Hin Hmid. apply test_i_suffix.
  exists pre, (mid ++ post), w. split; [reflexivity|]. split; [exact Hin|].
  apply match_here_i_prefix. now exists mid, post.
Qed.

(** X3. The patterns are tested as the search of a substring:
    [/w1|...|wn/i.test(text)] is true exactly when one of the words
    occurs somewhere in the text, up to the case of ASCII letters. *)
Theorem test_i_iff_occurs (alternatives : list jsstring) (text : jsstring) :
  test_i alternatives text = true
  <-> exists pre mid post w,
        text = pre ++ mid ++ post
        /\ In w alternatives
        /\ map canonicalize mid = map canonicalize w.
Proof.
  split.
  - intros H. apply test_i_suffix in H.
    destruct H as (pre & rest & w & -> & Hin & Hw).
    apply match_here_i_prefix in Hw. destruct Hw as (mid & post & -> & Hmid).
    now exists pre, mid, post, w.
  - intros (pre & mid & post & w & -> & Hin & Hmid).
    now apply test_i_occurrence with (w := w).
Qed.

(** X7. A greeting word anywhere in a prompt of fewer than 20 words
    makes it [simple], whatever stands around it, a request for code
    included. *)
Theorem greeting_inside_short_prompt (pre post w : jsstring) :
  In w (map str ["hello"; "hi"; "thanks"; "yes"; "no"; "ok"]%string) ->
  wordCount (pre ++ w ++ post) < 20 ->
  estimateComplexity (pre ++ w ++ post) = simple.
Proof.
  intros Hin Hcount. unfold estimateComplexity, hasSimpleRequest.
  rewrite (test_i_occurrence _ pre w post w Hin eq_refl).
  apply Nat.ltb_lt in Hcount. now rewrite Hcount.
Qed.

Lemma split_spaces_from_concat (text piece : jsstring) (in_run : bool) :
  (in_run = true -> piece = []) ->
  List.concat (split_spaces_from in_run piece text)
  = rev piece ++ filter (fun c => negb (is_space c)) text.
Proof.
  revert piece in_run.
  induction text as [|c text IH]; intros piece in_run Hrun; simpl.
  - now rewrite !app_nil_r.
  - destruct (is_space c); simpl.
    + destruct in_run.
      * rewrite (Hrun eq_refl). now apply IH.
      * simpl. now rewrite IH.
    + rewrite IH by discriminate. simpl. now rewrite <- app_assoc.
Qed.

Lemma split_spaces_from_no_space (text piece : jsstring) (in_run : bool) :
  no_space piece = true ->
  forallb no_space (split_spaces_from in_run piece text) = true.
Proof.
  revert piece in_run.
  induction text as [|c text IH]; intros piece in_run Hpiece; simpl.
  - rewrite andb_true_r. unfold no_space in *.
    rewrite forallb_forall in *. intros x Hx. apply Hpiece.
    now apply in_rev.
  - destruct (is_space c) eqn:Hc.
    + destruct in_run; simpl.
      * now apply IH.
      * rewrite IH by reflexivity. rewrite andb_true_r.
        unfold no_space in *. rewrite forallb_forall in *.
        intros x Hx. apply Hpiece. now apply in_rev.
    + apply IH. unfold no_space in *. simpl. now rewrite Hc, Hpiece.
Qed.

(** X5. [split(/\s+/)] loses nothing but white space: the pieces put
    together are the text without its white space, no piece holds a
    white-space code unit, and there is at least one piece, so the word
    count is never 0. *)
Theorem split_spaces_pieces (text : jsstring) :
  List.concat (split_spaces text) = filter (fun c => negb (is_space c)) text
  /\ forallb no_space (split_spaces text) = true
  /\ 1 <= wordCount text <= S (List.length text).
Proof.
  split; [|split].
  - apply (@split_spaces_from_concat text [] false). discriminate.
  - now apply split_spaces_from_no_space.
  - unfold wordCount, split_spaces.
    assert (H : forall t piece in_run,
      1 <= List.length (split_spaces_from in_run piece t)
        <= S (List.length t)).
    { induction t as [|c t IH]; intros piece in_run; simpl.
      - lia.
      - destruct (is_space c), in_run; simpl;
          try (specialize (IH [] true); lia);
          specialize (IH (c :: piece) false); lia. }
    apply H.
Qed.

End Patterns.

Lemma greeting_inside_short_prompt_witness :
  estimateComplexity (str "debug t" ++ str "hi" ++ str "s function") = simple.
Proof.
  apply (@greeting_inside_short_prompt (str "debug t") (str "s function")
           (str "hi")).
  - right. left. reflexivity.
  - vm_compute. lia.
Defined.

Lemma test_i_iff_occurs_witness :
  Regex.test_i (map str ["code"; "fix"]%string) (str "a BugFIX now") = true.
Proof.
  apply (proj2 (test_i_iff_occurs (map str ["code"; "fix"]%string)
                  (str "a BugFIX now"))).
  exists (str "a Bug"), (str "FIX"), (str " now"), (str "fix").
  split; [reflexivity|]. split; [right; left; reflexivity | reflexivity].
Defined.

(* ===================================================================== *)
(** ** The configuration and the clients *)
(* ===================================================================== *)

Lemma strip_final_slash_slash (s : jsstring) :
  strip_final_slash (s ++ [47%N]) = s.
Proof.
  induction s as [|c s IH]; [reflexivity|].
  simpl. destruct (s ++ [47%N]) eqn:Hs.
  - now destruct s.
  - now rewrite IH.
Qed.

Lemma strip_final_slash_other (s : jsstring) (c : N) :
  c <> 47%N -> strip_final_slash (s ++ [c]) = s ++ [c].
Proof.
  intros Hc. induction s as [|c' s IH].
  - simpl. apply N.eqb_neq in Hc. now rewrite Hc.
  - simpl. destruct (s ++ [c]) eqn:Hs.
    + now destruct s.
    + now rewrite IH.
Qed.

Section Clients.

Context {rt : Runtime}.

(** X1. The constructor of OllamaClient drops one slash at the end of
    the address and nothing else, so that a host configured with a final
    slash and the same host without it give the same base address, and
    the addresses of the requests hold no double slash before [api]. *)
Theorem baseUrl_final_slash :
  (forall s, strip_final_slash (s ++ str "/") = s)
  /\ (forall s c, c <> 47%N -> strip_final_slash (s ++ [c]) = s ++ [c])
  /\ (forall h,
        env_OLLAMA_HOST process_env = Some (h ++ str "/") ->
        baseUrl localClient = h
        /\ url (probe localClient) = h ++ str "/api/tags")
  /\ (forall h c,
        c <> 47%N ->
        env_OLLAMA_HOST process_env = Some (h ++ [c]) ->
        baseUrl localClient = h ++ [c]).
Proof.
  split; [exact strip_final_slash_slash|].
  split; [exact strip_final_slash_other|].
  split.
  - intros h Henv.
    assert (Hbase : baseUrl localClient = h).
    { unfold baseUrl, LOCAL_OLLAMA_HOST. rewrite Henv.
      change (str "/") with [47%N].
      destruct (h ++ [47%N]) eqn:Hh; [now destruct h|].
      simpl env_or. rewrite <- Hh. apply strip_final_slash_slash. }
    split; [exact Hbase|]. unfold probe. cbn [url]. now rewrite Hbase.
  - intros h c Hc Henv.
    unfold baseUrl, LOCAL_OLLAMA_HOST. rewrite Henv.
    destruct (h ++ [c]) eqn:Hh; [now destruct h|].
    simpl env_or. rewrite <- Hh. now apply strip_final_slash_other.
Qed.



(** X6. [isAvailable] answers [true] exactly when the network answers
    the probe in less than five seconds with a status from 200 to 299;
    the body of the answer plays no part. *)
Theorem isAvailable_true_iff (this : OllamaClient) (w : World) :
  fst (isAvailable this w) = Returned true
  <-> exists d r,
        network w (probe this) = NetReply d r
        /\ (d < 5000)%N /\ (200 <= status r <= 299)%N.
Proof.
  destruct (isAvailable_run this w) as (w' & Hrun & _).
  rewrite Hrun. simpl. split.
  - intros H. injection H as H.
    destruct (network w (probe this)) as [d e | d r |]; try discriminate.
    simpl in H. apply andb_true_iff in H. destruct H as [Hd Hok].
    unfold ok in Hok. apply andb_true_iff in Hok. destruct Hok as [Hlo Hhi].
    exists d, r. split; [reflexivity|].
    apply N.ltb_lt in Hd. apply N.leb_le in Hlo. apply N.leb_le in Hhi. lia.
  - intros (d & r & Hnet & Hd & Hlo & Hhi). rewrite Hnet. simpl.
    apply N.ltb_lt in Hd. apply N.leb_le in Hlo. apply N.leb_le in Hhi.
    unfold ok. now rewrite Hd, Hlo, Hhi.
Qed.

(** The first step of [chat], [generate] and [listModels]: the request
    is sent whatever comes of it. *)
Lemma chat_sends (this : OllamaClient) (model : jsval)
    (messages : list jsval) (options : list (jsstring * jsval)) (w : World) :
  sent (snd (chat this model messages options w))
  = (now w, chat_request this model messages options) :: sent w.
Proof.
  unfold chat, bind, fetch.
  change (signal (chat_request this model messages options)) with (@None N).
  destruct (network w _) as [d e | d r |]; simpl; try reflexivity.
  destruct (ok r); simpl; [|reflexivity].
  destruct (body_json r) as [e | data]; simpl; [reflexivity|].
  destruct (get_property data (str "message")); reflexivity.
Qed.

Lemma generate_sends (this : OllamaClient) (model prompt : jsval)
    (options : list (jsstring * jsval)) (w : World) :
  sent (snd (generate this model prompt options w))
  = (now w, generate_request this model prompt options) :: sent w.
Proof.
  unfold generate, bind, fetch.
  change (signal (mkRequest _ POST json_headers _ None)) with (@None N).
  fold (generate_request this model prompt options).
  destruct (network w _) as [d e | d r |]; simpl; try reflexivity.
  destruct (ok r); simpl; [|reflexivity].
  destruct (body_json r) as [e | data]; simpl; [reflexivity|].
  destruct (get_property data (str "response")); reflexivity.
Qed.

(** What [chat] makes of an answer of the network. *)
Lemma chat_reply (this : OllamaClient) (model : jsval)
    (messages : list jsval) (w : World) (d : N) (r : Response) :
  network w (chat_request this model messages []) = NetReply d r ->
  chat this model messages [] w
  = ((if negb (ok r)
      then throw (mkError (str "Ollama error: " ++ decimal (status r)
                           ++ str " " ++ body_text r))
      else
        data <- lift (body_json r) ;;
        message <- lift (get_property data (str "message")) ;;
        ret (js_or (get_property_optional message (str "content"))
                   (JStr [])))%async
       (advance d
          (mkWorld (now w)
             ((now w, chat_request this model messages []) :: sent w)))).
Proof.
  intros Hnet. unfold chat. unfold bind at 1. unfold fetch.
  rewrite Hnet. reflexivity.
Qed.

(** X8. Answers to [chat] that are not what the program expects. A
    status outside 200 to 299 is an error that quotes the status and the
    body; a body that is no JSON is the error of the parser; the body
    [null] is a TypeError; and an answer without [message.content], or
    with an empty one, is no error at all: [chat] returns the empty
    string. *)
Theorem chat_unexpected_answers (this : OllamaClient) (model : jsval)
    (messages : list jsval) (w : World) (d : N) (r : Response) :
  network w (chat_request this model messages []) = NetReply d r ->
  (ok r = false ->
   fst (chat this model messages [] w)
   = Thrown (mkError (str "Ollama error: " ++ decimal (status r)
                      ++ str " " ++ body_text r)))
  /\ (forall e, ok r = true -> body_json r = inl e ->
      fst (chat this model messages [] w) = Thrown e)
  /\ (ok r = true -> body_json r = inr JNull ->
      fst (chat this model messages [] w)
      = Thrown (mkError
                  (str "Cannot read properties of null (reading 'message')")))
  /\ (forall data, ok r = true -> body_json r = inr data ->
      nullish data = false ->
      truthy (get_property_optional (field data (str "message"))
                (str "content")) = false ->
      fst (chat this model messages [] w) = Returned (JStr []))
  /\ (forall data content, ok r = true -> body_json r = inr data ->
      nullish data = false ->
      get_property_optional (field data (str "message")) (str "content")
      = content ->
      truthy content = true ->
      fst (chat this model messages [] w) = Returned content).
Proof.
  intros Hnet. rewrite (chat_reply this model messages w Hnet).
  repeat split.
  - intros Hok. now rewrite Hok.
  - intros e Hok Hjson. rewrite Hok. unfold bind, lift. now rewrite Hjson.
  - intros Hok Hjson. rewrite Hok. unfold bind, lift. now rewrite Hjson.
  - intros data Hok Hjson Hdata Hcontent. rewrite Hok.
    unfold bind, lift, get_property. rewrite Hjson. simpl.
    rewrite Hdata. simpl. unfold js_or. now rewrite Hcontent.
  - intros data content Hok Hjson Hdata Hc Hcontent. rewrite Hok.
    unfold bind, lift, get_property. rewrite Hjson. simpl.
    rewrite Hdata. simpl. unfold js_or. now rewrite Hc, Hcontent.
Qed.

(** What [listModels] makes of an answer of the network. *)
Lemma listModels_reply (this : OllamaClient) (w : World) (d : N)
    (r : Response) :
  network w (tags_request this) = NetReply d r ->
  listModels this w
  = ((if negb (ok r)
      then throw (mkError (str "Ollama error: " ++ decimal (status r)))
      else
        data <- lift (body_json r) ;;
        models <- lift (get_property data (str "models")) ;;
        ret (js_or models (JArr [])))%async
       (advance d
          (mkWorld (now w) ((now w, tags_request this) :: sent w)))).
Proof.
  intros Hnet. unfold listModels. unfold bind at 1. unfold fetch.
  rewrite Hnet. reflexivity.
Qed.

(** X9. A client may be available and yet fail to list its models: the
    probe looks at the status only, [listModels] reads the body too. On
    the same answer in time with a good status, [isAvailable] is [true];
    [listModels] throws when the body is no JSON, and returns the empty
    list when the body has no [models]. *)
Theorem available_but_no_models (this : OllamaClient) (w : World) (d : N)
    (r : Response) :
  network w (probe this) = NetReply d r ->
  network w (tags_request this) = NetReply d r ->
  (d < 5000)%N ->
  ok r = true ->
  fst (isAvailable this w) = Returned true
  /\ (forall e, body_json r = inl e -> fst (listModels this w) = Thrown e)
  /\ (forall data, body_json r = inr data -> nullish data = false ->
      truthy (field data (str "models")) = false ->
      fst (listModels this w) = Returned (JArr [])).
Proof.
  intros Hprobe Htags Hd Hok.
  destruct (isAvailable_run this w) as (w' & Hrun & _).
  rewrite Hrun, Hprobe, (listModels_reply this w Htags), Hok. simpl.
  apply N.ltb_lt in Hd. rewrite Hd, Hok.
  split; [reflexivity|]. split.
  - intros e Hjson. unfold bind, lift. now rewrite Hjson.
  - intros data Hjson Hdata Hmodels.
    unfold bind, lift, get_property. rewrite Hjson. simpl.
    rewrite Hdata. simpl. unfold js_or. now rewrite Hmodels.
Qed.

End Clients.

(* ===================================================================== *)
(** ** More on the routing *)
(* ===================================================================== *)

Section RoutingMore.

Context {rt : Runtime}.

(** What the routing does to the world: nothing when it throws, and
    when it returns either nothing or the one probe of the local
    client. *)
Lemma determineRouting_effect (message model prefer : jsval) (w : World) :
  (exists e, determineRouting message model prefer w = (Thrown e, w))
  \/ exists routing w1,
       determineRouting message model prefer w = (Returned routing, w1)
       /\ (w1 = w
           \/ (sent w1 = (now w, probe localClient) :: sent w
               /\ (now w <= now w1 <= now w + 5000)%N)).
Proof.
  destruct (isAvailable_run localClient w) as (w1 & Hrun & Hsent & Hnow).
  unfold determineRouting.
  destruct (truthy model).
  { right. unfold bind, ret. rewrite Hrun. eexists _, w1.
    split; [reflexivity|]. right. now split. }
  destruct (strict_eq_str prefer (str "fast")).
  { right. eexists _, w. split; [reflexivity|]. now left. }
  destruct (strict_eq_str prefer (str "smart")).
  { right. eexists _, w. split; [reflexivity|]. now left. }
  unfold autoRouting, bind, lift, ret.
  destruct message as [| | b | n | s | items | fields]; simpl;
    try (left; eexists; unfold throw; reflexivity).
  right. destruct (estimateComplexity s); simpl.
  - rewrite Hrun. destruct (answers_in_time _);
      eexists _, w1; (split; [reflexivity|]); right; now split.
  - eexists _, w. split; [reflexivity|]. now left.
  - eexists _, w. split; [reflexivity|]. now left.
Qed.



(** A last step that only returns leaves the world as it is. *)
Lemma bind_ret_world {A B} (c : Async A) (f : A -> B) (w : World) :
  snd (bind c (fun a => ret (f a)) w) = snd (c w).
Proof.
  unfold bind, ret. now destruct (c w) as [[a | e |] w'].
Qed.

(** The world after a tool call is the world after its case. *)
Lemma callTool_chat_world (args : jsval) (w : World) :
  snd (callTool (str "chat") args w) = snd (case_chat args w).
Proof.
  rewrite callTool_outcome. unfold switch_name.
  change (jsstring_eqb (str "chat") (str "chat")) with true. cbv iota.
  now destruct (case_chat args w) as [[result | e |] w'].
Qed.

(** Once the routing has returned, the chat request is sent. *)
Lemma case_chat_routed (args : jsval) (w w1 : World) (routing : Routing) :
  nullish args = false ->
  determineRouting (field args (str "message")) (field args (str "model"))
    (with_default (field args (str "prefer")) (JStr (str "auto"))) w
  = (Returned routing, w1) ->
  sent (snd (case_chat args w))
  = (now w1,
     chat_request (client routing) (modelToUse routing)
       (build_messages (field args (str "system"))
                       (field args (str "message"))) []) :: sent w1.
Proof.
  intros Hargs Hroute.
  rewrite (case_chat_steps args Hargs). unfold bind at 1. rewrite Hroute.
  now rewrite bind_ret_world, chat_sends.
Qed.

(** X12. One call of [chat] sends one chat request at most, after one
    probe of the local client at most: the remote client is never
    probed, and an error of the chosen client is not followed by a
    request to the other one. *)
Theorem chat_sends_one_request_at_most (args : jsval) (w : World) :
  sent (snd (callTool (str "chat") args w)) = sent w
  \/ exists t this model messages,
       sent (snd (callTool (str "chat") args w))
       = (t, chat_request this model messages []) :: sent w
       \/ sent (snd (callTool (str "chat") args w))
          = (t, chat_request this model messages [])
            :: (now w, probe localClient) :: sent w.
Proof.
  rewrite callTool_chat_world.
  destruct (nullish args) eqn:Hargs.
  { left. unfold case_chat, destructurable, bind, lift. now rewrite Hargs. }
  destruct (determineRouting_effect (field args (str "message"))
              (field args (str "model"))
              (with_default (field args (str "prefer")) (JStr (str "auto"))) w)
    as [(e & Hroute) | (routing & w1 & Hroute & Hw1)].
  { left. rewrite (case_chat_steps args Hargs). unfold bind at 1.
    now rewrite Hroute. }
  right. rewrite (case_chat_routed args w Hargs Hroute).
  exists (now w1), (client routing), (modelToUse routing),
    (build_messages (field args (str "system")) (field args (str "message"))).
  destruct Hw1 as [-> | [Hprobe _]]; [now left | right; now rewrite Hprobe].
Qed.

(** X13. When a call of [chat] is answered, the [metadata] of the result
    tell where the request went: the last request sent is the chat
    request to the client whose base address is [endpoint], for the
    model [model], and the result is no error. *)
Theorem chat_metadata_match (args : jsval) (w w' : World) (r : ToolResult) :
  case_chat args w = (Returned r, w') ->
  isError r = false
  /\ exists m this messages t rest,
       metadata r = Some m
       /\ baseUrl this = endpoint m
       /\ sent w' = (t, chat_request this (model m) messages []) :: rest
       /\ url (chat_request this (model m) messages [])
          = endpoint m ++ str "/api/chat".
Proof.
  intros Hcase.
  destruct (nullish args) eqn:Hargs.
  { unfold case_chat, destructurable, bind, lift in Hcase.
    rewrite Hargs in Hcase. discriminate Hcase. }
  rewrite (case_chat_steps args Hargs) in Hcase. unfold bind at 1 in Hcase.
  destruct (determineRouting _ _ _ w) as [[routing | e |] w1];
    try discriminate Hcase.
  unfold bind at 1 in Hcase.
  pose proof (chat_sends (client routing) (modelToUse routing)
                (build_messages (field args (str "system"))
                                (field args (str "message"))) [] w1) as Hchat.
  destruct (chat (client routing) (modelToUse routing) _ [] w1)
    as [[response | e |] w2]; try discriminate Hcase.
  unfold ret in Hcase. injection Hcase as <- <-. simpl in Hchat.
  split; [reflexivity|].
  eexists _, (client routing), _, (now w1), (sent w1).
  split; [reflexivity|]. split; [reflexivity|]. split; [exact Hchat|].
  reflexivity.
Qed.

(** X14. With a forced preference and no model, a call of [chat] sends
    one request and no probe: the chat request to the local client with
    the local default model for [fast], to the remote client with the
    remote default model for [smart]. The message is sent as it is,
    string or not. *)
Theorem forced_preference_sends_one_request (args : jsval) (w : World) :
  nullish args = false ->
  truthy (field args (str "model")) = false ->
  (field args (str "prefer") = JStr (str "fast") ->
   sent (snd (callTool (str "chat") args w))
   = (now w,
      chat_request localClient (JStr DEFAULT_LOCAL_MODEL)
        (build_messages (field args (str "system"))
                        (field args (str "message"))) []) :: sent w)
  /\ (field args (str "prefer") = JStr (str "smart") ->
      sent (snd (callTool (str "chat") args w))
      = (now w,
         chat_request remoteClient (JStr DEFAULT_REMOTE_MODEL)
           (build_messages (field args (str "system"))
                           (field args (str "message"))) []) :: sent w).
Proof.
  intros Hargs Hm. rewrite callTool_chat_world.
  split; intros Hprefer.
  - apply (case_chat_routed args w Hargs
             (routing := mkRouting localClient (JStr DEFAULT_LOCAL_MODEL))).
    rewrite Hprefer. now apply fast_routes_local_eq.
  - apply (case_chat_routed args w Hargs
             (routing := mkRouting remoteClient (JStr DEFAULT_REMOTE_MODEL))).
    rewrite Hprefer. now apply smart_routes_remote.
Qed.

End RoutingMore.

(* ===================================================================== *)
(** ** More on the tools *)
(* ===================================================================== *)

Section ToolsMore.

Context {rt : Runtime}.

(** X15. Under the automatic routing a message of the tier [medium] or
    [complex] goes to the remote client without any probe: the call
    sends the one chat request, with the remote default model for
    [complex] and the name of the local default model for [medium]. *)
Theorem auto_not_simple_sends_no_probe (args : jsval) (message : jsstring)
    (w : World) :
  field args (str "message") = JStr message ->
  truthy (field args (str "model")) = false ->
  with_default (field args (str "prefer")) (JStr (str "auto"))
  = JStr (str "auto") ->
  estimateComplexity message <> simple ->
  sent (snd (callTool (str "chat") args w))
  = (now w,
     chat_request remoteClient
       (JStr (match estimateComplexity message with
              | complex => DEFAULT_REMOTE_MODEL
              | _ => DEFAULT_LOCAL_MODEL
              end))
       (build_messages (field args (str "system")) (JStr message)) [])
    :: sent w.
Proof.
  intros Hmessage Hm Hprefer Htier.
  assert (Hargs : nullish args = false).
  { apply field_not_nullish with (key := str "message").
    rewrite Hmessage. discriminate. }
  rewrite callTool_chat_world.
  rewrite (case_chat_routed args w Hargs (w1 := w)
             (routing := mkRouting remoteClient
                (JStr (match estimateComplexity message with
                       | complex => DEFAULT_REMOTE_MODEL
                       | _ => DEFAULT_LOCAL_MODEL
                       end)))).
  - now rewrite Hmessage.
  - rewrite Hprefer, Hmessage, (determineRouting_auto _ _ Hm).
    now apply autoRouting_not_simple.
Qed.

(** X16. A call of [chat] whose message is no string, with no model and
    a preference that is neither [fast] nor [smart], is answered by an
    error result before anything is sent: the classifier cannot split
    the message. *)
Theorem chat_without_text_sends_nothing (args : jsval) (w : World) :
  nullish args = false ->
  (forall s, field args (str "message") <> JStr s) ->
  truthy (field args (str "model")) = false ->
  field args (str "prefer") <> JStr (str "fast") ->
  field args (str "prefer") <> JStr (str "smart") ->
  exists e,
    callTool (str "chat") args w = (Returned (error_result e), w)
    /\ call_estimateComplexity (field args (str "message")) = inl e.
Proof.
  intros Hargs Hmessage Hm Hfast Hsmart.
  destruct (call_estimateComplexity (field args (str "message")))
    as [e | tier] eqn:Hcall.
  - exists e. split; [|reflexivity].
    apply callTool_chat_thrown.
    rewrite (case_chat_steps args Hargs). unfold bind at 1.
    rewrite determineRouting_else; [|exact Hm| |].
    + unfold autoRouting. unfold bind at 1. rewrite Hcall. reflexivity.
    + destruct (field args (str "prefer")); try reflexivity.
      now apply strict_eq_str_false.
    + destruct (field args (str "prefer")); try reflexivity.
      now apply strict_eq_str_false.
  - destruct (field args (str "message")) as [| | b | n | s | items | fields];
      try discriminate Hcall.
    now contradiction (Hmessage s).
Qed.

(** The world after [generate] is the world after its case. *)
Lemma callTool_generate_world (args : jsval) (w : World) :
  snd (callTool (str "generate") args w) = snd (case_generate args w).
Proof.
  rewrite callTool_outcome. unfold switch_name.
  change (jsstring_eqb (str "generate") (str "chat")) with false.
  change (jsstring_eqb (str "generate") (str "generate")) with true.
  cbv iota.
  now destruct (case_generate args w) as [[result | e |] w'].
Qed.

(** X17. [generate] knows no routing: whatever the arguments say and
    whether the local client is there or not, it sends one request, to
    the remote client, with the model given or else the remote default
    model, and [max_tokens] as [num_predict]; no probe is sent. *)
Theorem generate_targets_remote (args : jsval) (w : World) :
  nullish args = false ->
  sent (snd (callTool (str "generate") args w))
  = (now w,
     generate_request remoteClient
       (js_or (field args (str "model")) (JStr DEFAULT_REMOTE_MODEL))
       (field args (str "prompt"))
       [(str "num_predict", field args (str "max_tokens"))]) :: sent w.
Proof.
  intros Hargs. rewrite callTool_generate_world.
  assert (Hcase : case_generate args w
    = (response <- generate remoteClient
                     (js_or (field args (str "model"))
                            (JStr DEFAULT_REMOTE_MODEL))
                     (field args (str "prompt"))
                     [(str "num_predict", field args (str "max_tokens"))] ;;
       ret (mkToolResult [text_item response] None false))%async w).
  { unfold case_generate, destructurable. now rewrite Hargs. }
  now rewrite Hcase, bind_ret_world, generate_sends.
Qed.

(** X18. [health_check] always answers, and never with an error: after
    one probe of the local client and one of the remote client, ten
    seconds later at most, it returns the two flags as the probes found
    them. *)
Theorem health_check_always_answers (args : jsval) (w : World) :
  exists w1 w2,
    isAvailable localClient w
    = (Returned (answers_in_time (network w (probe localClient))), w1)
    /\ callTool (str "health_check") args w
       = (Returned
            (mkToolResult
               [text_item
                  (JStr (JSON_stringify 2
                     (health_object
                        (answers_in_time (network w (probe localClient)))
                        (answers_in_time (network w1 (probe remoteClient))))))]
               None false), w2)
    /\ sent w2
       = (now w1, probe remoteClient) :: (now w, probe localClient) :: sent w
    /\ (now w2 <= now w + 10000)%N.
Proof.
  destruct (isAvailable_run localClient w) as (w1 & Hrun1 & Hsent1 & Hnow1).
  destruct (isAvailable_run remoteClient w1) as (w2 & Hrun2 & Hsent2 & Hnow2).
  exists w1, w2. split; [exact Hrun1|]. split; [|split].
  - rewrite callTool_outcome. unfold switch_name.
    change (jsstring_eqb (str "health_check") (str "chat")) with false.
    change (jsstring_eqb (str "health_check") (str "generate")) with false.
    change (jsstring_eqb (str "health_check") (str "list_models")) with false.
    change (jsstring_eqb (str "health_check") (str "health_check")) with true.
    cbv iota. unfold case_health_check, bind, ret.
    rewrite Hrun1, Hrun2. reflexivity.
  - now rewrite Hsent2, Hsent1.
  - lia.
Qed.

(** The names of the tools, as [jsstring_eqb] sees them. *)
Lemma jsstring_eqb_false (a b : jsstring) :
  a <> b -> jsstring_eqb a b = false.
Proof.
  intros Hab. destruct (jsstring_eqb a b) eqn:E; [|reflexivity].
  apply jsstring_eqb_eq in E. contradiction.
Qed.

(** X19. The tools the server lists are the tools it serves: a call
    under a listed name runs one of the four cases, and a call under any
    other name is answered by the error result "Unknown tool" with the
    name, nothing being sent. *)
Theorem listed_tools_are_served (called : jsstring) (args : jsval) (w : World) :
  (In called (map name ListTools) ->
   In (switch_name called args)
      [case_chat args; case_generate args; case_list_models;
       case_health_check])
  /\ (~ In called (map name ListTools) ->
      callTool called args w
      = (Returned (error_result (mkError (str "Unknown tool: " ++ called))),
         w)).
Proof.
  split.
  - intros [<- | [<- | [<- | [<- | []]]]].
    + left. reflexivity.
    + right. left. reflexivity.
    + right. right. left. reflexivity.
    + right. right. right. left. reflexivity.
  - intros Hnot. rewrite callTool_outcome. unfold switch_name.
    rewrite !jsstring_eqb_false; [reflexivity| | | |];
      intros ->; apply Hnot; simpl; auto.
Qed.

(** X20. No call of any tool ends in a thrown error, whatever the name
    and the arguments: what the [switch] throws comes back as an error
    result, and what it returns comes back as it is. *)
Theorem callTool_never_raises (called : jsstring) (args : jsval) (w : World) :
  match switch_name called args w with
  | (Returned result, w') => callTool called args w = (Returned result, w')
  | (Thrown e, w') =>
      callTool called args w = (Returned (error_result e), w')
      /\ isError (error_result e) = true
  | (Pending, w') => callTool called args w = (Pending, w')
  end
  /\ match fst (callTool called args w) with
     | Thrown _ => False
     | _ => True
     end.
Proof.
  rewrite callTool_outcome.
  destruct (switch_name called args w) as [[result | e |] w']; simpl; auto.
Qed.

(** X21. [list_models] never gives up on an error: when the listings of
    both clients throw, the result holds the two error markers, and
    whatever [list_models] returns is no error result. *)
Theorem list_models_never_an_error (args : jsval) (w : World) :
  (forall e1 w1 e2 w2,
      listModels localClient w = (Thrown e1, w1) ->
      listModels remoteClient w1 = (Thrown e2, w2) ->
      list_models_results w
      = (Returned (JArr [JObj [(str "error", JStr (message e1))]],
                   JArr [JObj [(str "error", JStr (message e2))]]), w2))
  /\ (forall r w',
        callTool (str "list_models") args w = (Returned r, w') ->
        isError r = false /\ metadata r = None)
  /\ match fst (list_models_results w) with
     | Thrown _ => False
     | _ => True
     end.
Proof.
  split; [|split].
  - intros e1 w1 e2 w2 Hlocal Hremote.
    unfold list_models_results, bind, try_catch, ret, error_marker.
    now rewrite Hlocal, Hremote.
  - intros r w' Hcall. rewrite callTool_list_models in Hcall.
    assert (Hnever : forall e w1, list_models_results w <> (Thrown e, w1)).
    { intros e w1. unfold list_models_results, bind, try_catch, ret.
      destruct (listModels localClient w) as [[l | el |] wl];
        try discriminate;
        destruct (listModels remoteClient wl) as [[m | em |] wm];
        discriminate. }
    destruct (list_models_results w) as [[results | e |] w1] eqn:Hresults.
    + injection Hcall as <- _. now split.
    + now contradiction (Hnever e w1).
    + discriminate Hcall.
  - unfold list_models_results, bind, try_catch, ret.
    destruct (listModels localClient w) as [[l | el |] wl]; simpl; auto;
      destruct (listModels remoteClient wl) as [[m | em |] wm]; simpl; auto.
Qed.

End ToolsMore.

(* ===================================================================== *)
(** ** The health check script *)
(* ===================================================================== *)

Section HealthCheckFacts.

Import HealthCheck.

Variable succeeds : Check -> bool.

Lemma run_from_0 (todo : list Check) :
  made (run succeeds 0 todo) = up_to_first_failure succeeds todo
  /\ exit_status (run succeeds 0 todo)
     = Nat.min 1 (List.length (filter (fails_counted succeeds) todo)).
Proof.
  induction todo as [|c todo [IHmade IHexit]].
  - split; reflexivity.
  - cbn [run up_to_first_failure filter].
    unfold fails_counted at 1 2.
    destruct (succeeds c) eqn:Hc; [|destruct (on_failure c) eqn:Hf];
      cbn [negb andb Nat.eqb then_made made exit_status].
    + now rewrite IHmade, IHexit.
    + split; [reflexivity|]. cbn [List.length]. lia.
    + now rewrite IHmade, IHexit.
Qed.

(** X22. Under [set -e] the script does not count its failures: it ends
    at the first check that fails and counts, with the status 1, the
    later checks not being made; when no such check fails it makes all
    the checks and ends with the status 0. Its exit status is the
    number of failed services cut off at 1. *)
Theorem script_stops_at_first_failure :
  made (script succeeds) = up_to_first_failure succeeds checks
  /\ exit_status (script succeeds)
     = Nat.min 1 (List.length (filter (fails_counted succeeds) checks)).
Proof.
  exact (run_from_0 checks).
Qed.

End HealthCheckFacts.

(** Redis and the remote desktop are down, the rest is up: two services
    have failed, the script ends at Redis with the status 1. *)
Example script_two_down :
  let succeeds := fun c =>
    negb (String.eqb (HealthCheck.label c) "Redis"
          || String.eqb (HealthCheck.label c) "RDP") in
  List.length
    (filter (HealthCheck.fails_counted succeeds) HealthCheck.checks) = 2
  /\ HealthCheck.exit_status (HealthCheck.script succeeds) = 1
  /\ List.length (HealthCheck.made (HealthCheck.script succeeds)) = 9.
Proof. repeat split. Qed.

(** Everything is down: the script ends after its first check. *)
Example script_all_down :
  HealthCheck.script (fun _ => false)
  = HealthCheck.mkRun
      [HealthCheck.mkCheck "SSH"
         (HealthCheck.check_port HealthCheck.AI_SERVER 22 3)
         HealthCheck.count_it] 1.
Proof. reflexivity. Qed.

(* ===================================================================== *)
(** ** More theorems on the example runtimes *)
(* ===================================================================== *)

Lemma baseUrl_final_slash_witness :
  @baseUrl (Examples.runtime_in Examples.slash_env Examples.both_up)
    localClient
  = str "http://gpu-box:8080"
  /\ url (@probe (Examples.runtime_in Examples.slash_env Examples.both_up)
            localClient)
     = str "http://gpu-box:8080" ++ str "/api/tags".
Proof.
  apply (proj1 (proj2 (proj2
           (@baseUrl_final_slash
              (Examples.runtime_in Examples.slash_env Examples.both_up))))
           (str "http://gpu-box:8080")).
  reflexivity.
Defined.


Lemma isAvailable_true_iff_witness :
  fst (@isAvailable (Examples.runtime Examples.both_up) localClient
         Examples.start)
  = Returned true.
Proof.
  apply (proj2 (@isAvailable_true_iff (Examples.runtime Examples.both_up)
                  localClient Examples.start)).
  exists 0%N, Examples.answer.
  split; [reflexivity|]. split; [reflexivity|].
  split; vm_compute; discriminate.
Defined.

(** An answer [{}] to a chat request is the empty text. *)
Lemma chat_unexpected_answers_witness :
  fst (@chat (Examples.runtime Examples.empty_object) localClient
         (JStr (str "qwen2.5:1.5b")) [] [] Examples.start)
  = Returned (JStr []).
Proof.
  apply (proj1 (proj2 (proj2 (proj2
           (@chat_unexpected_answers
              (Examples.runtime Examples.empty_object) localClient
              (JStr (str "qwen2.5:1.5b")) [] Examples.start 2%N
              (mkResponse 200 (str "{}") (inr (JObj []))) eq_refl))))
           (JObj [])); reflexivity.
Defined.

(** A page of HTML under the status 200: available, and no models. *)
Lemma available_but_no_models_witness :
  fst (@isAvailable (Examples.runtime Examples.not_json) localClient
         Examples.start)
  = Returned true
  /\ fst (@listModels (Examples.runtime Examples.not_json) localClient
            Examples.start)
     = Thrown (mkError (str "Unexpected token '<'")).
Proof.
  destruct (@available_but_no_models (Examples.runtime Examples.not_json)
              localClient Examples.start 2%N
              (mkResponse 200 (str "<html>")
                 (inl (mkError (str "Unexpected token '<'"))))
              eq_refl eq_refl eq_refl eq_refl) as (Hup & Hjson & _).
  split; [exact Hup|]. apply Hjson. reflexivity.
Defined.


Lemma chat_metadata_match_witness :
  exists m this messages t rest,
    Some (mkMetadata (JStr (str "qwen2.5:1.5b")) (str "http://localhost:8080"))
    = Some m
    /\ @baseUrl (Examples.runtime Examples.both_up) this = endpoint m
    /\ sent (snd (@case_chat (Examples.runtime Examples.both_up)
                    (Examples.chat_args "hi" []) Examples.start))
       = (t, @chat_request (Examples.runtime Examples.both_up) this (model m)
               messages []) :: rest
    /\ url (@chat_request (Examples.runtime Examples.both_up) this (model m)
              messages [])
       = endpoint m ++ str "/api/chat".
Proof.
  apply (proj2
           (@chat_metadata_match (Examples.runtime Examples.both_up)
              (Examples.chat_args "hi" []) Examples.start
              (snd (@case_chat (Examples.runtime Examples.both_up)
                      (Examples.chat_args "hi" []) Examples.start))
              (mkToolResult [text_item (JStr (str "Hello!"))]
                 (Some (mkMetadata (JStr (str "qwen2.5:1.5b"))
                          (str "http://localhost:8080")))
                 false)
              eq_refl)).
Defined.

Lemma forced_preference_sends_one_request_witness :
  sent (snd (@callTool (Examples.runtime Examples.local_down) (str "chat")
               (Examples.chat_args "hi" [(str "prefer", JStr (str "fast"))])
               Examples.start))
  = [(0%N,
      @chat_request (Examples.runtime Examples.local_down) localClient
        (JStr (str "qwen2.5:1.5b"))
        [JObj [(str "role", JStr (str "user"));
               (str "content", JStr (str "hi"))]] [])].
Proof.
  apply (proj1
           (@forced_preference_sends_one_request
              (Examples.runtime Examples.local_down)
              (Examples.chat_args "hi" [(str "prefer", JStr (str "fast"))])
              Examples.start eq_refl eq_refl)).
  reflexivity.
Defined.

Lemma auto_not_simple_sends_no_probe_witness :
  sent (snd (@callTool (Examples.runtime Examples.both_up) (str "chat")
               (Examples.chat_args "what time works" []) Examples.start))
  = [(0%N,
      @chat_request (Examples.runtime Examples.both_up) remoteClient
        (JStr (str "qwen2.5:1.5b"))
        [JObj [(str "role", JStr (str "user"));
               (str "content", JStr (str "what time works"))]] [])].
Proof.
  apply (@auto_not_simple_sends_no_probe
           (Examples.runtime Examples.both_up)
           (Examples.chat_args "what time works" [])
           (str "what time works") Examples.start).
  - reflexivity.
  - reflexivity.
  - reflexivity.
  - vm_compute. discriminate.
Defined.

Lemma chat_without_text_sends_nothing_witness :
  exists e,
    @callTool (Examples.runtime Examples.both_up) (str "chat") (JObj [])
      Examples.start
    = (Returned (error_result e), Examples.start)
    /\ @call_estimateComplexity JUndefined = inl e.
Proof.
  apply (@chat_without_text_sends_nothing (Examples.runtime Examples.both_up)
           (JObj []) Examples.start).
  - reflexivity.
  - intros s. vm_compute. discriminate.
  - reflexivity.
  - vm_compute. discriminate.
  - vm_compute. discriminate.
Defined.

Lemma generate_targets_remote_witness :
  sent (snd (@callTool (Examples.runtime Examples.both_up) (str "generate")
               (JObj [(str "prompt", JStr (str "Once"))]) Examples.start))
  = [(0%N,
      @generate_request (Examples.runtime Examples.both_up) remoteClient
        (JStr (str "qwen2.5:7b")) (JStr (str "Once"))
        [(str "num_predict", JUndefined)])].
Proof.
  apply (@generate_targets_remote (Examples.runtime Examples.both_up)
           (JObj [(str "prompt", JStr (str "Once"))]) Examples.start).
  reflexivity.
Defined.

Lemma listed_tools_are_served_witness :
  @callTool (Examples.runtime Examples.both_up) (str "list-models") JUndefined
    Examples.start
  = (Returned (error_result (mkError (str "Unknown tool: list-models"))),
     Examples.start).
Proof.
  apply (proj2 (@listed_tools_are_served (Examples.runtime Examples.both_up)
                  (str "list-models") JUndefined Examples.start)).
  intros [H | [H | [H | [H | []]]]]; discriminate H.
Defined.

Lemma list_models_never_an_error_witness :
  fst (@list_models_results (Examples.runtime Examples.both_down)
         Examples.start)
  = Returned (JArr [JObj [(str "error", JStr (str "fetch failed"))]],
              JArr [JObj [(str "error", JStr (str "fetch failed"))]]).
Proof.
  rewrite (proj1 (@list_models_never_an_error
                    (Examples.runtime Examples.both_down) JUndefined
                    Examples.start)
             (mkError (str "fetch failed"))
             (snd (@listModels (Examples.runtime Examples.both_down)
                     localClient Examples.start))
             (mkError (str "fetch failed"))
             (snd (@listModels (Examples.runtime Examples.both_down)
                     remoteClient
                     (snd (@listModels (Examples.runtime Examples.both_down)
                             localClient Examples.start))))
             eq_refl eq_refl).
  reflexivity.
Defined.

(* ===================================================================== *)
(** ** A preference outside the three declared values *)
(* ===================================================================== *)

Section OtherPreference.

Context {rt : Runtime}.

(** The auto branch on a message that is a string: it always decides,
    by the class of the message and the probe of the local client. *)
Lemma autoRouting_decides (message : jsstring) (w : World) :
  autoRouting (JStr message) w
  = (Returned
       (auto_decision (estimateComplexity message)
          (answers_in_time (network w (probe localClient)))),
     snd (autoRouting (JStr message) w)).
Proof.
  destruct (estimateComplexity message) eqn:Htier.
  - destruct (autoRouting_simple message w Htier) as (w' & _ & Hroute).
    rewrite Hroute. simpl. now destruct (answers_in_time _).
  - rewrite autoRouting_not_simple by (rewrite Htier; discriminate).
    now rewrite Htier.
  - rewrite autoRouting_not_simple by (rewrite Htier; discriminate).
    now rewrite Htier.
Qed.

(** C10. A chat request without a model whose [prefer] is anything but
    [fast] and [smart], be it a string outside the declared three or no
    string at all, is not refused. The case is the auto branch followed
    by the call of the client it chose, and the whole call answers as
    the call does whose arguments differ in [prefer] alone, set to
    [auto]. When the message is a string the routing is decided by its
    class and by the probe of the local client, the chat request is
    sent to the client so chosen, and the call returns what that client
    answers: its text with the [metadata], or its error as the error
    result. *)
Theorem other_prefer_routes_as_auto (args : jsval) (w : World) :
  nullish args = false ->
  field args (str "prefer") <> JStr (str "fast") ->
  field args (str "prefer") <> JStr (str "smart") ->
  truthy (field args (str "model")) = false ->
  case_chat args
  = (routing <- autoRouting (field args (str "message")) ;;
     response <- chat (client routing) (modelToUse routing)
                   (build_messages (field args (str "system"))
                                   (field args (str "message"))) [] ;;
     ret (mkToolResult [text_item response]
            (Some (mkMetadata (modelToUse routing) (baseUrl (client routing))))
            false))%async
  /\ (forall args',
        field args' (str "prefer") = JStr (str "auto") ->
        field args' (str "message") = field args (str "message") ->
        field args' (str "system") = field args (str "system") ->
        field args' (str "model") = field args (str "model") ->
        callTool (str "chat") args w = callTool (str "chat") args' w)
  /\ (forall message,
        field args (str "message") = JStr message ->
        determineRouting (JStr message) (field args (str "model"))
          (with_default (field args (str "prefer")) (JStr (str "auto"))) w
        = (Returned
             (auto_decision (estimateComplexity message)
                (answers_in_time (network w (probe localClient)))),
           snd (autoRouting (JStr message) w))
        /\ sent (snd (callTool (str "chat") args w))
           = (now (snd (autoRouting (JStr message) w)),
              chat_request
                (client (auto_decision (estimateComplexity message)
                           (answers_in_time (network w (probe localClient)))))
                (modelToUse
                   (auto_decision (estimateComplexity message)
                      (answers_in_time (network w (probe localClient)))))
                (build_messages (field args (str "system")) (JStr message))
                [])
             :: sent (snd (autoRouting (JStr message) w))
        /\ callTool (str "chat") args w
           = match
               chat
                 (client (auto_decision (estimateComplexity message)
                            (answers_in_time
                               (network w (probe localClient)))))
                 (modelToUse
                    (auto_decision (estimateComplexity message)
                       (answers_in_time (network w (probe localClient)))))
                 (build_messages (field args (str "system")) (JStr message))
                 [] (snd (autoRouting (JStr message) w))
             with
             | (Returned response, w2) =>
                 (Returned
                    (mkToolResult [text_item response]
                       (Some
                          (mkMetadata
                             (modelToUse
                                (auto_decision (estimateComplexity message)
                                   (answers_in_time
                                      (network w (probe localClient)))))
                             (baseUrl
                                (client
                                   (auto_decision
                                      (estimateComplexity message)
                                      (answers_in_time
                                         (network w
                                            (probe localClient))))))))
                       false), w2)
             | (Thrown e, w2) => (Returned (error_result e), w2)
             | (Pending, w2) => (Pending, w2)
             end).
Proof.
  intros Hargs Hfast Hsmart Hm.
  assert (Hroute :
    determineRouting (field args (str "message")) (field args (str "model"))
      (with_default (field args (str "prefer")) (JStr (str "auto")))
    = autoRouting (field args (str "message"))).
  { apply determineRouting_else; [exact Hm| |].
    - destruct (field args (str "prefer")); try reflexivity.
      now apply strict_eq_str_false.
    - destruct (field args (str "prefer")); try reflexivity.
      now apply strict_eq_str_false. }
  assert (Hcase : case_chat args
    = (routing <- autoRouting (field args (str "message")) ;;
       response <- chat (client routing) (modelToUse routing)
                     (build_messages (field args (str "system"))
                                     (field args (str "message"))) [] ;;
       ret (mkToolResult [text_item response]
              (Some (mkMetadata (modelToUse routing)
                       (baseUrl (client routing))))
              false))%async).
  { rewrite (case_chat_steps args Hargs). now rewrite Hroute. }
  split; [exact Hcase|]. split.
  - intros args' Hprefer' Hmessage' Hsystem' Hmodel'.
    assert (Hargs' : nullish args' = false).
    { apply field_not_nullish with (key := str "prefer").
      rewrite Hprefer'. discriminate. }
    unfold callTool, switch_name.
    change (jsstring_eqb (str "chat") (str "chat")) with true. cbv iota.
    rewrite Hcase, (case_chat_steps args' Hargs').
    rewrite Hprefer', Hmessage', Hsystem', Hmodel'.
    change (with_default (JStr (str "auto")) (JStr (str "auto")))
      with (JStr (str "auto")).
    now rewrite (determineRouting_auto (field args (str "message")) _ Hm).
  - intros message Hmessage.
    assert (Hdecides :
      determineRouting (JStr message) (field args (str "model"))
        (with_default (field args (str "prefer")) (JStr (str "auto"))) w
      = (Returned
           (auto_decision (estimateComplexity message)
              (answers_in_time (network w (probe localClient)))),
         snd (autoRouting (JStr message) w))).
    { rewrite <- Hmessage, Hroute, Hmessage. apply autoRouting_decides. }
    split; [exact Hdecides|]. split.
    + rewrite callTool_chat_world.
      rewrite <- Hmessage in *.
      now rewrite (case_chat_routed args w Hargs Hdecides).
    + rewrite callTool_outcome. unfold switch_name.
      change (jsstring_eqb (str "chat") (str "chat")) with true. cbv iota.
      rewrite Hcase, Hmessage. unfold bind at 1.
      rewrite autoRouting_decides. unfold bind, ret. cbn [snd].
      now destruct (chat _ _ _ [] (snd (autoRouting (JStr message) w)))
        as [[response | e |] w2].
Qed.

End OtherPreference.

(** "hi" with the preference "turbo", both instances up: the local
    client answers, as it does for [auto]. *)
Lemma other_prefer_routes_as_auto_witness :
  @callTool (Examples.runtime Examples.both_up) (str "chat")
    (Examples.chat_args "hi" [(str "prefer", JStr (str "turbo"))])
    Examples.start
  = (Returned
       (mkToolResult [text_item (JStr (str "Hello!"))]
          (Some (mkMetadata (JStr (str "qwen2.5:1.5b"))
                   (str "http://localhost:8080")))
          false),
     mkWorld 0
       [(0%N,
         @chat_request (Examples.runtime Examples.both_up) localClient
           (JStr (str "qwen2.5:1.5b"))
           [JObj [(str "role", JStr (str "user"));
                  (str "content", JStr (str "hi"))]] []);
        (0%N, @probe (Examples.runtime Examples.both_up) localClient)])
  /\ @callTool (Examples.runtime Examples.both_up) (str "chat")
       (Examples.chat_args "hi" [(str "prefer", JStr (str "turbo"))])
       Examples.start
     = @callTool (Examples.runtime Examples.both_up) (str "chat")
         (Examples.chat_args "hi" [(str "prefer", JStr (str "auto"))])
         Examples.start.
Proof.
  assert (Hfast :
    field (Examples.chat_args "hi" [(str "prefer", JStr (str "turbo"))])
      (str "prefer") <> JStr (str "fast")) by (vm_compute; discriminate).
  assert (Hsmart :
    field (Examples.chat_args "hi" [(str "prefer", JStr (str "turbo"))])
      (str "prefer") <> JStr (str "smart")) by (vm_compute; discriminate).
  destruct (@other_prefer_routes_as_auto (Examples.runtime Examples.both_up)
              (Examples.chat_args "hi" [(str "prefer", JStr (str "turbo"))])
              Examples.start eq_refl Hfast Hsmart eq_refl)
    as (_ & Hauto & Hstring).
  split.
  - destruct (Hstring (str "hi") eq_refl) as (_ & _ & Hcall).
    rewrite Hcall. reflexivity.
  - apply Hauto; reflexivity.
Defined.
